(** * pydocs: document upload, versioning, metadata extraction and tagging

    A shallow embedding of the request handlers and helpers of
    [pydocs/schema/file.py] and of the tag parser of [pydocs/workflows.py],
    together with the properties stated about them.

    Conventions of the embedding:
    - a Python [str] is a [string]; its characters are read as the code
      points U+0000..U+00FF (Latin-1), so [isspace] and [lower] below are
      Python's on that range;
    - a Python [bytes] is a [list N] of octets;
    - a Python [int] is a [Z];
    - a [dict] is a [gmap string _], a [set] a [gset _];
    - code that raises returns an [outcome]; [try]/[except] is [try_except]. *)

From Equations Require Import Equations.
From Stdlib Require Import ZArith Lia Ascii String.
From Stdlib.Strings Require Import Byte.
From stdpp Require Import base option list sorting gmap strings.

Local Open Scope Z_scope.

(** ** Python string primitives *)

Module Py.

(** [str.isspace] on one character (code points below 256). *)
Definition isspace (c : ascii) : bool :=
  let n := N_of_ascii c in
  ((9 <=? n) && (n <=? 13) || (28 <=? n) && (n <=? 32)
   || (n =? 133) || (n =? 160))%N.

(** [str.lower] on one character (code points below 256). *)
Definition lower_char (c : ascii) : ascii :=
  let n := N_of_ascii c in
  if ((65 <=? n) && (n <=? 90) || (192 <=? n) && (n <=? 214)
      || (216 <=? n) && (n <=? 222))%N
  then ascii_of_N (n + 32) else c.

Fixpoint lower (s : string) : string :=
  match s with
  | EmptyString => EmptyString
  | String c r => String (lower_char c) (lower r)
  end.

Fixpoint lstrip (s : string) : string :=
  match s with
  | EmptyString => EmptyString
  | String c r => if isspace c then lstrip r else s
  end.

Fixpoint rstrip (s : string) : string :=
  match s with
  | EmptyString => EmptyString
  | String c r =>
      match rstrip r with
      | EmptyString => if isspace c then EmptyString else String c EmptyString
      | r' => String c r'
      end
  end.

(** [s.strip()] *)
Definition strip (s : string) : string := rstrip (lstrip s).

(** [s.split(sep)] for a one-character separator: never the empty list. *)
Fixpoint split (sep : ascii) (s : string) : list string :=
  match s with
  | EmptyString => [EmptyString]
  | String c r =>
      if Ascii.eqb c sep then EmptyString :: split sep r
      else match split sep r with
           | h :: t => String c h :: t
           | [] => [String c EmptyString]
           end
  end.

(** [sep.join(l)] *)
Fixpoint join (sep : string) (l : list string) : string :=
  match l with
  | [] => EmptyString
  | [s] => s
  | s :: t => s +:+ sep +:+ join sep t
  end.

(** Truthiness of a [str]: the empty string is falsy. *)
Definition truthy (s : string) : bool :=
  match s with EmptyString => false | _ => true end.

(** [len(s)] *)
Definition len (s : string) : Z := Z.of_nat (String.length s).

(** [c in s] for one character. *)
Fixpoint contains (c : ascii) (s : string) : Prop :=
  match s with
  | EmptyString => False
  | String c' r => c' = c \/ contains c r
  end.

End Py.

(** ** workflows.py: parsing the tags out of the LLM response *)

Module DocumentTaggingWorkflow.

(** One round of the loop
    [for tag in tags: if tag not in seen: seen.add(tag); unique_tags.append(tag)]. *)
Definition dedup_step (st : gset string * list string) (tag : string)
  : gset string * list string :=
  if decide (tag ∈ st.1) then st else ({[tag]} ∪ st.1, st.2 ++ [tag]).

Definition _parse_tags_from_response (response : string) : list string :=
  let tags := Py.split "," (Py.strip response) in
  let tags :=
    (λ tag, Py.lower (Py.strip tag)) <$>
      filter (λ tag, Py.truthy (Py.strip tag) = true) tags in
  let unique_tags := (foldl dedup_step (∅, []) tags).2 in
  take 7 unique_tags.

(** The reading of "remove duplicates, keep the first occurrence, keep the
    order" that the loop is compared with. *)
Fixpoint keep_first_seen (l : list string) : list string :=
  match l with
  | [] => []
  | x :: r => x :: filter (λ y, y ≠ x) (keep_first_seen r)
  end.

End DocumentTaggingWorkflow.

(** ** Exceptions *)

(** The exceptions that cross a function boundary in the modelled code.
    An [HTTPException] is kept with its status code; its [detail] text is
    not modelled. *)
Inductive exn : Type :=
| HTTPException (status_code : Z)
| UnicodeDecodeError
| FileNotFoundError
| ImportError
| PdfReadError
| SQLAlchemyError.

(** [issubclass(e, Exception)]: what a bare [except Exception] catches. *)
Definition is_Exception (e : exn) : bool := true.

Definition is_UnicodeDecodeError (e : exn) : bool :=
  match e with UnicodeDecodeError => true | _ => false end.

Inductive outcome (A : Type) : Type :=
| Returned (a : A)
| Raised (e : exn).
Arguments Returned {A} a.
Arguments Raised {A} e.

Definition bind {A B} (m : outcome A) (k : A -> outcome B) : outcome B :=
  match m with
  | Returned a => k a
  | Raised e => Raised e
  end.

(** [try: body  except C1: h1  except C2: h2 ...]: the first clause whose
    class matches handles the exception; what a handler raises is not
    caught by the clauses after it. *)
Fixpoint dispatch {A} (clauses : list ((exn -> bool) * (exn -> outcome A)))
    (e : exn) : outcome A :=
  match clauses with
  | [] => Raised e
  | (catches, handler) :: rest =>
      if catches e then handler e else dispatch rest e
  end.

Definition try_except {A} (body : outcome A)
    (clauses : list ((exn -> bool) * (exn -> outcome A))) : outcome A :=
  match body with
  | Returned a => Returned a
  | Raised e => dispatch clauses e
  end.

Declare Scope outcome_scope.
Delimit Scope outcome_scope with outcome.
Notation "x <- m ;; k" := (bind m (fun x => k))
  (at level 100, m at next level, right associativity) : outcome_scope.

Definition HTTP_400_BAD_REQUEST : Z := 400.
Definition HTTP_403_FORBIDDEN : Z := 403.
Definition HTTP_404_NOT_FOUND : Z := 404.
Definition HTTP_413_REQUEST_ENTITY_TOO_LARGE : Z := 413.
Definition HTTP_422_UNPROCESSABLE_ENTITY : Z := 422.
Definition HTTP_500_INTERNAL_SERVER_ERROR : Z := 500.

(** ** hashlib *)

(** SHA-256 (FIPS 180-4) as a hash object that is fed in pieces. *)
Module hashlib.

Local Open Scope N_scope.

Definition mask32 : N := 0xFFFFFFFF.
Definition add32 (a b : N) : N := N.land (a + b) mask32.
Definition rotr (n x : N) : N :=
  N.lor (N.shiftr x n) (N.land (N.shiftl x (32 - n)) mask32).
Definition not32 (x : N) : N := N.lxor x mask32.

Definition Ch (x y z : N) : N := N.lxor (N.land x y) (N.land (not32 x) z).
Definition Maj (x y z : N) : N :=
  N.lxor (N.lxor (N.land x y) (N.land x z)) (N.land y z).
Definition Sigma0 (x : N) : N := N.lxor (N.lxor (rotr 2 x) (rotr 13 x)) (rotr 22 x).
Definition Sigma1 (x : N) : N := N.lxor (N.lxor (rotr 6 x) (rotr 11 x)) (rotr 25 x).
Definition sigma0 (x : N) : N := N.lxor (N.lxor (rotr 7 x) (rotr 18 x)) (N.shiftr x 3).
Definition sigma1 (x : N) : N := N.lxor (N.lxor (rotr 17 x) (rotr 19 x)) (N.shiftr x 10).

(** The constants of the standard are derived, not tabulated: the first
    primes, and the first 32 bits of the fractional parts of their square
    and cube roots. *)
Definition is_prime (n : N) : bool :=
  (1 <? n) && forallb (λ d, negb (n mod d =? 0)) (N.of_nat <$> seq 2 (N.to_nat n - 2)).

Definition primes (count : nat) : list N :=
  take count (filter (λ n, is_prime n = true) (N.of_nat <$> seq 2 310)).

(** The integer cube root by bisection on the bits below [2 ^ bits]. *)
Fixpoint cube_root_from (bits : nat) (n r : N) : N :=
  match bits with
  | O => r
  | S b =>
      let r' := r + 2 ^ N.of_nat b in
      cube_root_from b n (if r' * r' * r' <=? n then r' else r)
  end.

Definition frac_cube_root (p : N) : N :=
  N.land (cube_root_from 36 (p * 2 ^ 96) 0) mask32.

Definition frac_square_root (p : N) : N :=
  N.land (N.sqrt (p * 2 ^ 64)) mask32.

Definition K : list N := frac_cube_root <$> primes 64.

Definition H0 : list N := frac_square_root <$> primes 8.

(** The big-endian words of a block of bytes. *)
Fixpoint words (block : list N) : list N :=
  match block with
  | b0 :: b1 :: b2 :: b3 :: r =>
      (b0 * 16777216 + b1 * 65536 + b2 * 256 + b3) :: words r
  | _ => []
  end.

(** The message schedule, latest word first: [n] more words. *)
Fixpoint schedule (n : nat) (w : list N) : list N :=
  match n with
  | O => w
  | S n' =>
      let wt :=
        add32 (add32 (sigma1 (w !!! 1%nat)) (w !!! 6%nat))
              (add32 (sigma0 (w !!! 14%nat)) (w !!! 15%nat)) in
      schedule n' (wt :: w)
  end.

Definition round (s : list N) (kw : N * N) : list N :=
  match s with
  | [a; b; c; d; e; f; g; h] =>
      let t1 := add32 (add32 (add32 h (Sigma1 e)) (Ch e f g))
                      (add32 kw.1 kw.2) in
      let t2 := add32 (Sigma0 a) (Maj a b c) in
      [add32 t1 t2; a; b; c; add32 d t1; e; f; g]
  | _ => s
  end.

(** One block of 64 bytes into the chaining value. *)
Definition compress (h : list N) (block : list N) : list N :=
  let w := reverse (schedule 48 (reverse (words block))) in
  zip_with add32 h (foldl round h (zip K w)).

(** The hash object: chaining value, bytes of the block that is not full
    yet, number of bytes fed so far. *)
Record sha256 := {
  chaining : list N;
  buffer : list N;
  fed : N;
}.

(** [hashlib.sha256()] *)
Definition new : sha256 := {| chaining := H0; buffer := []; fed := 0 |}.

Definition absorb (h : sha256) (b : N) : sha256 :=
  let buf := buffer h ++ [b] in
  if (length buf =? 64)%nat
  then {| chaining := compress (chaining h) buf; buffer := []; fed := fed h + 1 |}
  else {| chaining := chaining h; buffer := buf; fed := fed h + 1 |}.

(** [h.update(data)] *)
Definition update (h : sha256) (data : list byte) : sha256 :=
  foldl absorb h (Byte.to_N <$> data).

(** The padding: a one bit, zeros up to 56 modulo 64, and the length in
    bits as 8 bytes. *)
Definition padding (h : sha256) : list N :=
  let used := length (buffer h) in
  let zeros := if (used <? 56)%nat then (55 - used)%nat else (119 - used)%nat in
  let bits := fed h * 8 in
  128 :: replicate zeros 0
    ++ ((λ i, N.land (N.shiftr bits (8 * i)) 255) <$> [7; 6; 5; 4; 3; 2; 1; 0]).

Definition hex_digit (n : N) : ascii :=
  if n <? 10 then ascii_of_N (48 + n) else ascii_of_N (87 + n).

Definition hex_word (w : N) : list ascii :=
  (λ i, hex_digit (N.land (N.shiftr w (4 * i)) 15)) <$> [7; 6; 5; 4; 3; 2; 1; 0].

(** [h.hexdigest()] *)
Definition hexdigest (h : sha256) : string :=
  string_of_list_ascii
    (mjoin (hex_word <$> chaining (foldl absorb h (padding h)))).

(** [hashlib.sha256(data).hexdigest()] *)
Definition sha256_hexdigest (data : list byte) : string :=
  hexdigest (update new data).

End hashlib.

#[global] Opaque hashlib.compress.
Arguments hashlib.update : simpl never.
Arguments hashlib.hexdigest : simpl never.
Arguments hashlib.sha256_hexdigest : simpl never.

(** ** pathlib *)

Module Path.

(** [Path(p).name]: the last component that is neither empty nor ["."]. *)
Definition name (p : string) : string :=
  List.last (filter (λ c, c ≠ EmptyString ∧ c ≠ ".") (Py.split "/" p))
    EmptyString.

(** [nm[nm.rfind('.'):]], or [None] when [nm] has no dot. *)
Fixpoint from_last_dot (nm : string) : option string :=
  match nm with
  | EmptyString => None
  | String c r =>
      match from_last_dot r with
      | Some t => Some t
      | None => if Ascii.eqb c "." then Some nm else None
      end
  end.

(** [Path(p).suffix]: with [i = name.rfind('.')], it is [name[i:]] when
    [0 < i < len(name) - 1] and the empty string otherwise. *)
Definition suffix (p : string) : string :=
  let nm := name p in
  match from_last_dot nm with
  | Some t =>
      let i := Py.len nm - Py.len t in
      if (0 <? i) && (i <? Py.len nm - 1) then t else EmptyString
  | None => EmptyString
  end.

(** [Path(p).stem] *)
Definition stem (p : string) : string :=
  let nm := name p in
  String.substring 0 (String.length nm - String.length (suffix p)) nm.

(** [a / b] for a relative [b]. *)
Definition join (a b : string) : string := a +:+ "/" +:+ b.

End Path.

(** ** models/document.py *)

Inductive DocumentType := TEXT | PDF | MARKDOWN | HTML.
Inductive DocumentStatus := DRAFT | PUBLISHED | ARCHIVED.

#[global] Instance DocumentType_eq_dec : EqDecision DocumentType.
Proof. solve_decision. Defined.
#[global] Instance DocumentStatus_eq_dec : EqDecision DocumentStatus.
Proof. solve_decision. Defined.

(** [DocumentType.value] and [DocumentStatus.value] *)
Definition DocumentType_value (t : DocumentType) : string :=
  match t with
  | TEXT => "text" | PDF => "pdf" | MARKDOWN => "markdown" | HTML => "html"
  end.
Definition DocumentStatus_value (s : DocumentStatus) : string :=
  match s with
  | DRAFT => "draft" | PUBLISHED => "published" | ARCHIVED => "archived"
  end.

(** A [uuid.UUID], identified with its canonical text, which is what
    [str(owner_id)] puts in a path. *)
Abbreviation UUID := string (only parsing).

(** Decoded text: the code points of a [str] read from a file or a PDF. *)
Abbreviation text := (list N) (only parsing).

(** Content of a file on disk. *)
Abbreviation bytes := (list byte) (only parsing).

(** The values that the metadata dictionaries hold. *)
Inductive pyval : Type :=
| PNone
| PInt (z : Z)
| PBool (b : bool)
| PStr (s : string)
| PText (t : text).

(** Columns of [text_document]. *)
Record TextColumns := {
  encoding : string;
  line_count : option Z;
  word_count : option Z;
  character_count : option Z;
  language : option string;
  content_preview : option text;
}.

(** Columns of [pdf_document]. *)
Record PDFColumns := {
  page_count : option Z;
  pdf_version : option string;
  is_encrypted : bool;
  is_searchable : bool;
  pdf_title : option string;
  pdf_author : option string;
  pdf_subject : option string;
  pdf_creator : option string;
  pdf_producer : option string;
  creation_date : option string;
  modification_date : option string;
  text_preview : option text;
}.

(** The concrete class of a row of [document] (single-table inheritance
    through the discriminator column [type]). *)
Inductive Subtype : Type :=
| BaseDocument
| TextDocument (c : TextColumns)
| PDFDocument (c : PDFColumns).

(** A row of [document] without its primary key [id]: the table below maps
    the key to the row, so that [document.id] is the key the row was
    selected by. *)
Record Document := {
  title : string;
  description : option string;
  document_type : DocumentType;
  status : DocumentStatus;
  file_path : string;
  file_name : string;
  file_size : Z;
  mime_type : string;
  checksum : option string;
  is_public : bool;
  download_count : Z;
  created_at : Z;
  updated_at : Z;
  owner_id : UUID;
  subtype : Subtype;
}.

Record DocumentVersion := {
  dv_id : UUID;
  dv_document_id : UUID;
  version_number : Z;
  dv_file_path : string;
  dv_file_size : Z;
  dv_checksum : string;
  change_summary : option string;
  created_by_id : UUID;
  dv_created_at : Z;
}.

(** The two tables the handlers touch: [document] keyed by its primary key,
    [document_version] as its rows in insertion order. *)
Record Database := {
  document : gmap string Document;
  document_version : list DocumentVersion;
}.

(** ** config.py *)

Record BaseConfig := {
  UPLOAD_DIR : string;
  MAX_UPLOAD_SIZE : Z;
}.

Definition ALLOWED_EXTENSIONS : gset string :=
  {[ ".txt"; ".pdf"; ".md"; ".html"; ".htm" ]}.

Definition ALLOWED_MIME_TYPES : gset string :=
  {[ "text/plain"; "application/pdf"; "text/markdown"; "text/html";
     "application/octet-stream" ]}.

(** ** schema/file.py: helpers *)

(** A multipart upload: [file] is the content still to be read. *)
Record UploadFile := {
  filename : option string;
  content_type : option string;
  file : bytes;
}.

(** [s or d] for an optional [str]: [None] and the empty string are falsy. *)
Definition str_or (s : option string) (d : string) : string :=
  match s with
  | Some v => if Py.truthy v then v else d
  | None => d
  end.

Definition get_document_type_from_mime (mime_type filename : string)
  : DocumentType :=
  let extension := Py.lower (Path.suffix filename) in
  if bool_decide (mime_type = "application/pdf")
     || bool_decide (extension = ".pdf") then PDF
  else if bool_decide (mime_type = "text/markdown")
          || bool_decide (extension = ".md") then MARKDOWN
  else if bool_decide (mime_type = "text/html")
          || bool_decide (extension ∈ ({[ ".html"; ".htm" ]} : gset string))
       then HTML
  else TEXT.

Definition validate_file (upload_file : UploadFile) : outcome unit :=
  match filename upload_file with
  | None | Some EmptyString => Raised (HTTPException HTTP_400_BAD_REQUEST)
  | Some fname =>
      let extension := Py.lower (Path.suffix fname) in
      if bool_decide (extension ∉ ALLOWED_EXTENSIONS) then
        Raised (HTTPException HTTP_400_BAD_REQUEST)
      else
        (* the MIME type is looked at, and any value is let through *)
        Returned ()
  end.

(** *** Decoding a text file *)

Module Codec.

Definition continuation (b : N) : bool := ((128 <=? b) && (b <=? 191))%N.

(** Second byte of a three-byte sequence: no overlong forms, no surrogates. *)
Definition second_of_3 (b0 b1 : N) : bool :=
  (if b0 =? 224 then (160 <=? b1) && (b1 <=? 191)
   else if b0 =? 237 then (128 <=? b1) && (b1 <=? 159)
   else continuation b1)%N.

(** Second byte of a four-byte sequence: no overlong forms, at most U+10FFFF. *)
Definition second_of_4 (b0 b1 : N) : bool :=
  (if b0 =? 240 then (144 <=? b1) && (b1 <=? 191)
   else if b0 =? 244 then (128 <=? b1) && (b1 <=? 143)
   else continuation b1)%N.

(** The strict UTF-8 decoder ([errors="strict"]); [None] stands for
    [UnicodeDecodeError]. *)
Fixpoint utf8 (bs : list N) : option text :=
  match bs with
  | [] => Some []
  | b0 :: r0 =>
      if (b0 <? 128)%N then cons b0 <$> utf8 r0
      else if ((194 <=? b0) && (b0 <=? 223))%N then
        match r0 with
        | b1 :: r1 =>
            if continuation b1
            then cons ((b0 - 192) * 64 + (b1 - 128))%N <$> utf8 r1
            else None
        | _ => None
        end
      else if ((224 <=? b0) && (b0 <=? 239))%N then
        match r0 with
        | b1 :: b2 :: r2 =>
            if second_of_3 b0 b1 && continuation b2
            then cons ((b0 - 224) * 4096 + (b1 - 128) * 64 + (b2 - 128))%N
                   <$> utf8 r2
            else None
        | _ => None
        end
      else if ((240 <=? b0) && (b0 <=? 244))%N then
        match r0 with
        | b1 :: b2 :: b3 :: r3 =>
            if second_of_4 b0 b1 && continuation b2 && continuation b3
            then cons ((b0 - 240) * 262144 + (b1 - 128) * 4096
                       + (b2 - 128) * 64 + (b3 - 128))%N <$> utf8 r3
            else None
        | _ => None
        end
      else None
  end.

(** Latin-1 maps every byte to the code point of the same number. *)
Definition latin1 (bs : list N) : text := bs.

(** Text mode with the default [newline=None]: ["\r\n"] and a lone
    ["\r"] are read as ["\n"]. *)
Fixpoint universal_newlines (t : text) : text :=
  match t with
  | [] => []
  | c :: r =>
      if (c =? 13)%N then
        10%N :: match r with
                | c' :: r' =>
                    if (c' =? 10)%N then universal_newlines r'
                    else universal_newlines r
                | [] => []
                end
      else c :: universal_newlines r
  end.

End Codec.

(** Operations of [str] on decoded text. *)
Module Text.

(** [str.isspace] on one code point. *)
Definition isspace (c : N) : bool :=
  ((9 <=? c) && (c <=? 13) || (28 <=? c) && (c <=? 32)
   || (c =? 133) || (c =? 160) || (c =? 5760)
   || (8192 <=? c) && (c <=? 8202) || (c =? 8232) || (c =? 8233)
   || (c =? 8239) || (c =? 8287) || (c =? 12288))%N.

(** [t.split(sep)] for a one-character separator. *)
Fixpoint split (sep : N) (t : text) : list text :=
  match t with
  | [] => [[]]
  | c :: r =>
      if (c =? sep)%N then [] :: split sep r
      else match split sep r with
           | h :: tl => (c :: h) :: tl
           | [] => [[c]]
           end
  end.

(** [t.split()]: the maximal runs of characters that are not whitespace;
    [cur] is the run being read. *)
Fixpoint split_ws_from (cur : text) (t : text) : list text :=
  match t with
  | [] => match cur with [] => [] | _ => [cur] end
  | c :: r =>
      if isspace c
      then match cur with [] => split_ws_from [] r
                        | _ => cur :: split_ws_from [] r end
      else split_ws_from (cur ++ [c]) r
  end.
Definition split_ws (t : text) : list text := split_ws_from [] t.

(** [t.strip()] is truthy: some character is not whitespace. *)
Definition strip_truthy (t : text) : bool := existsb (λ c, negb (isspace c)) t.

(** ["\n".join(l)] *)
Fixpoint join_lines (l : list text) : text :=
  match l with
  | [] => []
  | [t] => t
  | t :: r => t ++ 10%N :: join_lines r
  end.

Definition len (t : text) : Z := Z.of_nat (length t).

(** [t[:2000] if t else None] *)
Definition preview (t : text) : pyval :=
  match t with
  | [] => PNone
  | _ => PText (take (Z.to_nat 2000) t)
  end.

End Text.

(** *** The file system *)

(** The files on disk, by path. *)
Abbreviation Disk := (gmap string bytes) (only parsing).

(** [open(path, "r", encoding=...)] followed by [read()]. *)
Definition read_text (decode : list N -> option text) (disk : Disk)
    (path : string) : outcome text :=
  match disk !! path with
  | None => Raised FileNotFoundError
  | Some content =>
      match decode (Byte.to_N <$> content) with
      | None => Raised UnicodeDecodeError
      | Some t => Returned (Codec.universal_newlines t)
      end
  end.

(** The dictionary the text extractor builds from the decoded content. *)
Definition text_metadata_of (content : text) (enc : string)
  : gmap string pyval :=
  let lines := Text.split 10%N content in
  let words := Text.split_ws content in
  {[ "line_count" := PInt (Z.of_nat (length lines));
     "word_count" := PInt (Z.of_nat (length words));
     "character_count" := PInt (Text.len content);
     "content_preview" := Text.preview content;
     "encoding" := PStr enc ]}.

Definition extract_text_metadata (disk : Disk) (file_path : string)
  : outcome (gmap string pyval) :=
  try_except
    (content <- read_text Codec.utf8 disk file_path ;;
     Returned (text_metadata_of content "utf-8"))%outcome
    [ (is_UnicodeDecodeError,
       λ _,
         (* Try with latin-1 as fallback *)
         try_except
           (content <- read_text (λ bs, Some (Codec.latin1 bs)) disk file_path ;;
            Returned (text_metadata_of content "latin-1"))%outcome
           [ (is_Exception, λ _, Returned {[ "encoding" := PStr "binary" ]}) ]);
      (is_Exception, λ _, Returned ∅) ].


(** *** pypdf *)

(** What the code reads from a [pypdf.PdfReader]. The parser is lazy, so
    each access may raise. *)
Record PdfPage := { extract_text : outcome text }.

Record PdfReader := {
  pages : outcome (list PdfPage);
  reader_is_encrypted : outcome bool;
  pdf_header : outcome string;
  metadata : outcome (option (gmap string pyval));
}.

(** [d.get(key)] *)
Definition dict_get (d : gmap string pyval) (key : string) : pyval :=
  default PNone (d !! key).

(** Values for the keys of [upd] replace those of [d] ([d.update(upd)]). *)
Definition dict_update (d upd : gmap string pyval) : gmap string pyval :=
  upd ∪ d.

(** [s.replace(old, new)] for a non-empty [old]; [skip] counts the characters
    of a match still to be passed over. *)
Fixpoint replace_from (old new : string) (skip : nat) (s : string) : string :=
  match s with
  | EmptyString => EmptyString
  | String c r =>
      match skip with
      | S k => replace_from old new k r
      | O =>
          if String.prefix old s
          then new +:+ replace_from old new (String.length old - 1) r
          else String c (replace_from old new 0 r)
      end
  end.
Definition str_replace (old new s : string) : string := replace_from old new 0 s.

(** The loop over [reader.pages]: a page whose text cannot be extracted is
    skipped. The state is [(is_searchable, text_content)]. *)
Definition page_step (st : bool * list text) (page : PdfPage) : bool * list text :=
  match extract_text page with
  | Returned t =>
      if Text.strip_truthy t then (true, st.2 ++ [t]) else st
  | Raised _ => st
  end.

Definition pdf_default_metadata : gmap string pyval :=
  {[ "page_count" := PNone;
     "is_encrypted" := PBool false;
     "is_searchable" := PBool true ]}.

Definition is_ImportError (e : exn) : bool :=
  match e with ImportError => true | _ => false end.

(** The body of the second [try] of [extract_pdf_metadata]. *)
Definition read_pdf_metadata (reader : PdfReader)
  : outcome (gmap string pyval) :=
  (pgs <- pages reader ;;
   enc <- reader_is_encrypted reader ;;
   header <- pdf_header reader ;;
   let metadata0 : gmap string pyval :=
     {[ "page_count" := PInt (Z.of_nat (length pgs));
        "is_encrypted" := PBool enc;
        "pdf_version" := if Py.truthy header
                         then PStr (str_replace "%PDF-" "" header)
                         else PNone ]} in
   info <- metadata reader ;;
   let metadata1 :=
     match info with
     | Some m =>
         if bool_decide (m = ∅) then metadata0
         else dict_update metadata0
                {[ "pdf_title" := dict_get m "Title";
                   "pdf_author" := dict_get m "Author";
                   "pdf_subject" := dict_get m "Subject";
                   "pdf_creator" := dict_get m "Creator";
                   "pdf_producer" := dict_get m "Producer";
                   "creation_date" := dict_get m "CreationDate";
                   "modification_date" := dict_get m "ModDate" ]}
     | None => metadata0
     end in
   let '(is_searchable, text_content) := foldl page_step (false, []) pgs in
   let full_text := Text.join_lines text_content in
   Returned (<["text_preview" := Text.preview full_text]>
               (<["is_searchable" := PBool is_searchable]> metadata1)))%outcome.

(** *** Response schemas *)

Record DocumentUploadResponse := {
  up_id : UUID;
  up_title : string;
  up_file_name : string;
  up_file_size : Z;
  up_mime_type : string;
  up_document_type : string;
  up_status : string;
  up_created_at : Z;
}.

Record DocumentDetailResponse := {
  r_id : UUID;
  r_title : string;
  r_description : option string;
  r_file_name : string;
  r_file_size : Z;
  r_mime_type : string;
  r_document_type : string;
  r_status : string;
  r_is_public : bool;
  r_download_count : Z;
  r_created_at : Z;
  r_updated_at : Z;
  r_checksum : option string;
  r_page_count : option Z;
  r_line_count : option Z;
  r_word_count : option Z;
}.

Record DocumentListResponse := {
  documents : list DocumentDetailResponse;
  total : Z;
  page : Z;
  page_size : Z;
}.

(** The record every read handler answers with. *)
Definition detail_response (row : UUID * Document) : DocumentDetailResponse :=
  let '(doc_id, doc) := row in
  {| r_id := doc_id;
     r_title := title doc;
     r_description := description doc;
     r_file_name := file_name doc;
     r_file_size := file_size doc;
     r_mime_type := mime_type doc;
     r_document_type := DocumentType_value (document_type doc);
     r_status := DocumentStatus_value (status doc);
     r_is_public := is_public doc;
     r_download_count := download_count doc;
     r_created_at := created_at doc;
     r_updated_at := updated_at doc;
     r_checksum := checksum doc;
     r_page_count :=
       match subtype doc with PDFDocument c => page_count c | _ => None end;
     r_line_count :=
       match subtype doc with TextDocument c => line_count c | _ => None end;
     r_word_count :=
       match subtype doc with TextDocument c => word_count c | _ => None end |}.

Definition upload_response (doc_id : UUID) (doc : Document)
  : DocumentUploadResponse :=
  {| up_id := doc_id;
     up_title := title doc;
     up_file_name := file_name doc;
     up_file_size := file_size doc;
     up_mime_type := mime_type doc;
     up_document_type := DocumentType_value (document_type doc);
     up_status := DocumentStatus_value (status doc);
     up_created_at := created_at doc |}.

(** *** Metadata dictionaries and subtype columns *)

Definition as_int (v : pyval) : option Z :=
  match v with PInt z => Some z | _ => None end.
Definition as_str (v : pyval) : option string :=
  match v with PStr s => Some s | _ => None end.
Definition as_text (v : pyval) : option text :=
  match v with PText t => Some t | _ => None end.
Definition as_bool (dflt : bool) (v : pyval) : bool :=
  match v with PBool b => b | _ => dflt end.

(** [setattr(document, key, value)] for every key of the dictionary: a
    column whose key is absent keeps the value [old] it had. *)
Definition set_opt {A} (conv : pyval -> option A) (d : gmap string pyval)
    (key : string) (old : option A) : option A :=
  match d !! key with Some v => conv v | None => old end.

Definition set_text_columns (c : TextColumns) (d : gmap string pyval)
  : TextColumns :=
  {| encoding :=
       match d !! "encoding" with
       | Some (PStr e) => e
       | _ => encoding c
       end;
     line_count := set_opt as_int d "line_count" (line_count c);
     word_count := set_opt as_int d "word_count" (word_count c);
     character_count := set_opt as_int d "character_count" (character_count c);
     language := language c;
     content_preview := set_opt as_text d "content_preview" (content_preview c) |}.

Definition set_pdf_columns (c : PDFColumns) (d : gmap string pyval)
  : PDFColumns :=
  {| page_count := set_opt as_int d "page_count" (page_count c);
     pdf_version := set_opt as_str d "pdf_version" (pdf_version c);
     is_encrypted :=
       match d !! "is_encrypted" with
       | Some v => as_bool (is_encrypted c) v
       | None => is_encrypted c
       end;
     is_searchable :=
       match d !! "is_searchable" with
       | Some v => as_bool (is_searchable c) v
       | None => is_searchable c
       end;
     pdf_title := set_opt as_str d "pdf_title" (pdf_title c);
     pdf_author := set_opt as_str d "pdf_author" (pdf_author c);
     pdf_subject := set_opt as_str d "pdf_subject" (pdf_subject c);
     pdf_creator := set_opt as_str d "pdf_creator" (pdf_creator c);
     pdf_producer := set_opt as_str d "pdf_producer" (pdf_producer c);
     creation_date := set_opt as_str d "creation_date" (creation_date c);
     modification_date :=
       set_opt as_str d "modification_date" (modification_date c);
     text_preview := set_opt as_text d "text_preview" (text_preview c) |}.

(** The column defaults of a new [TextDocument] and a new [PDFDocument];
    the constructor sets the keys of the metadata dictionary over them. *)
Definition new_text_columns : TextColumns :=
  {| encoding := "utf-8"; line_count := None; word_count := None;
     character_count := None; language := None; content_preview := None |}.

Definition new_pdf_columns : PDFColumns :=
  {| page_count := None; pdf_version := None; is_encrypted := false;
     is_searchable := true; pdf_title := None; pdf_author := None;
     pdf_subject := None; pdf_creator := None; pdf_producer := None;
     creation_date := None; modification_date := None;
     text_preview := None |}.

(** *** Queries *)

(** [max(l, default=d)] *)
Definition py_max (l : list Z) (d : Z) : Z :=
  match l with
  | [] => d
  | x :: r => foldl Z.max x r
  end.

#[global] Instance version_desc_dec :
  RelDecision (λ a b : DocumentVersion, version_number b <= version_number a).
Proof. intros a b. apply Z_le_dec. Defined.

#[global] Instance created_desc_dec :
  RelDecision (λ a b : UUID * Document, created_at b.2 <= created_at a.2).
Proof. intros a b. apply Z_le_dec. Defined.

(** [document.versions]: the rows of [document_version] that point to the
    document, by descending [version_number]. *)
Definition versions (d : Database) (document_id : UUID) : list DocumentVersion :=
  merge_sort (λ a b, version_number b <= version_number a)
    (filter (λ v, dv_document_id v = document_id) (document_version d)).

(** The rows of [document_version] of one document, oldest first. *)
Definition version_rows (d : Database) (document_id : UUID)
  : list DocumentVersion :=
  filter (λ v, dv_document_id v = document_id) (document_version d).

(** The rows of the table [document], each with its key. *)
Definition all_documents (d : Database) : list (UUID * Document) :=
  map_to_list (document d).

(** [query.where(column == value)] when the filter is given. *)
Definition where_opt {A} `{EqDecision A} (column : Document -> A)
    (flt : option A) (rows : list (UUID * Document)) : list (UUID * Document) :=
  match flt with
  | Some v => filter (λ row, column row.2 = v) rows
  | None => rows
  end.

(** ** The handlers *)

(** What a request takes from its environment: the clock, the identifiers
    [uuid.uuid4()] hands out, and whether the commit goes through. *)
Record Env := {
  utcnow : Z;
  utcnow_Ym : string;        (* datetime.utcnow().strftime("%Y/%m") *)
  uuid4_filename : UUID;     (* names the stored file *)
  uuid4_row : UUID;          (* primary key of the row that is added *)
  commit_raises : bool;      (* the database rejects the transaction *)
}.

(** The state outside the process. *)
Record World := {
  disk : Disk;
  db : Database;
}.

(** Size of the chunks read from the upload. *)
Definition CHUNK : nat := Z.to_nat 8192.
#[global] Opaque CHUNK.

Section Handlers.

Variable settings : BaseConfig.

(** [from pypdf import PdfReader]: [None] when the module is missing;
    otherwise what the constructor does with the content of a file. *)
Variable pypdf : option (bytes -> outcome PdfReader).

(** The [while chunk := await upload_file.read(8192)] loop. The arguments
    are the bytes still to be read, the running [file_size], the hash
    object and the disk. *)
Equations? write_chunks (file_path : string) (stream : bytes) (file_size : Z)
    (sha256_hash : hashlib.sha256) (dsk : Disk)
  : outcome (Z * hashlib.sha256) * Disk by wf (length stream) lt :=
  write_chunks file_path [] file_size sha256_hash dsk :=
    (Returned (file_size, sha256_hash), dsk);
  write_chunks file_path (b :: rest) file_size sha256_hash dsk :=
    let chunk := take CHUNK (b :: rest) in
    let file_size := file_size + Z.of_nat (length chunk) in
    if file_size >? MAX_UPLOAD_SIZE settings then
      (* out_file.close(); os.unlink(file_path) *)
      (Raised (HTTPException HTTP_413_REQUEST_ENTITY_TOO_LARGE),
       delete file_path dsk)
    else
      write_chunks file_path (drop CHUNK (b :: rest)) file_size
        (hashlib.update sha256_hash chunk)
        (alter (λ written, written ++ chunk) file_path dsk).
Proof.
  rewrite length_drop.
  assert (0 < CHUNK)%nat by (apply Nat.ltb_lt; vm_compute; reflexivity).
  simpl length. lia.
Qed.

(** Where [save_upload_file] puts the file:
    [UPLOAD_DIR / owner_id / "%Y/%m" / (uuid4 + extension)]. *)
Definition upload_path (env : Env) (upload_file : UploadFile)
    (owner_id : UUID) : string :=
  let date_folder := utcnow_Ym env in
  let upload_dir :=
    Path.join (Path.join (UPLOAD_DIR settings) owner_id) date_folder in
  let file_extension := Path.suffix (str_or (filename upload_file) "file") in
  let unique_filename := uuid4_filename env +:+ file_extension in
  Path.join upload_dir unique_filename.

Definition save_upload_file (env : Env) (upload_file : UploadFile)
    (owner_id : UUID) (dsk : Disk)
  : outcome (string * Z * string) * Disk :=
  let file_path := upload_path env upload_file owner_id in
  (* open(file_path, "wb") creates the file, or empties it *)
  match write_chunks file_path (file upload_file) 0 hashlib.new
          (<[file_path := []]> dsk) with
  | (Returned (file_size, sha256_hash), dsk') =>
      (Returned (file_path, file_size, hashlib.hexdigest sha256_hash), dsk')
  | (Raised e, dsk') => (Raised e, dsk')
  end.

(** The second [try] block of [extract_pdf_metadata]: open the file
    with the reader and collect the metadata. *)
Definition open_and_read_pdf (PdfReader_ : bytes -> outcome PdfReader)
    (dsk : Disk) (file_path : string) : outcome (gmap string pyval) :=
  (reader <- match dsk !! file_path with
             | Some content => PdfReader_ content
             | None => Raised FileNotFoundError
             end ;;
   read_pdf_metadata reader)%outcome.

Definition extract_pdf_metadata (dsk : Disk) (file_path : string)
  : outcome (gmap string pyval) :=
  match pypdf with
  | None =>
      (* except ImportError *)
      Returned pdf_default_metadata
  | Some PdfReader_ =>
      try_except (open_and_read_pdf PdfReader_ dsk file_path)
        [ (is_Exception, λ _, Returned pdf_default_metadata) ]
  end.

Definition with_disk (w : World) (dsk : Disk) : World :=
  {| disk := dsk; db := db w |}.

(** [os.unlink(file_path)] guarded by [file_path.exists()] *)
Definition unlink_if_exists (file_path : string) (dsk : Disk) : Disk :=
  delete file_path dsk.

(** The [try] block of [upload_document], up to the commit: the document
    that is added to the session. *)
Definition new_document (env : Env) (file : UploadFile)
    (title description : option string) (is_public : bool)
    (current_user : UUID) (mime_type : string) (doc_type : DocumentType)
    (file_path : string) (file_size : Z) (checksum : string) (dsk : Disk)
  : outcome Document :=
  let doc_title :=
    str_or title (Path.stem (str_or (filename file) "Untitled")) in
  (sub <- (if bool_decide (doc_type = PDF) then
             pdf_metadata <- extract_pdf_metadata dsk file_path ;;
             Returned (PDFDocument (set_pdf_columns new_pdf_columns pdf_metadata))
           else
             text_metadata <- extract_text_metadata dsk file_path ;;
             Returned (TextDocument (set_text_columns new_text_columns text_metadata))) ;;
   Returned
     {| title := doc_title;
        description := description;
        document_type := doc_type;
        status := DRAFT;
        file_path := file_path;
        file_name := default EmptyString (filename file);
        file_size := file_size;
        mime_type := mime_type;
        checksum := Some checksum;
        is_public := is_public;
        download_count := 0;
        created_at := utcnow env;
        updated_at := utcnow env;
        owner_id := current_user;
        subtype := sub |})%outcome.

(** [db.add(document); await db.commit()]: the row gets its key from
    [uuid.uuid4]. The commit fails when the database rejects the
    transaction, which is what [commit_raises] says, or when the key is
    taken. *)
Definition commit_document (env : Env) (doc : Document) (d : Database)
  : outcome Database :=
  if commit_raises env || bool_decide (is_Some (document d !! uuid4_row env))
  then Raised SQLAlchemyError
  else
    Returned {| document := <[uuid4_row env := doc]> (document d);
                document_version := document_version d |}.

(** POST /files/upload. The tagging workflow that the handler starts
    without awaiting it runs after the response and is not part of the
    model. *)
Definition upload_document (env : Env) (file : UploadFile)
    (title description : option string) (is_public : bool)
    (current_user : UUID) (w : World)
  : outcome DocumentUploadResponse * World :=
  match validate_file file with
  | Raised e => (Raised e, w)
  | Returned _ =>
      let mime_type := str_or (content_type file) "application/octet-stream" in
      let doc_type :=
        get_document_type_from_mime mime_type (str_or (filename file) EmptyString) in
      match save_upload_file env file current_user (disk w) with
      | (Raised e, dsk) => (Raised e, with_disk w dsk)
      | (Returned (file_path, file_size, checksum), dsk) =>
          match
            (doc <- new_document env file title description is_public
                      current_user mime_type doc_type file_path file_size
                      checksum dsk ;;
             db' <- commit_document env doc (db w) ;;
             Returned (doc, db'))%outcome
          with
          | Returned (doc, db') =>
              (Returned (upload_response (uuid4_row env) doc),
               {| disk := dsk; db := db' |})
          | Raised _ =>
              (* Clean up file on database error *)
              (Raised (HTTPException HTTP_500_INTERNAL_SERVER_ERROR),
               with_disk w (unlink_if_exists file_path dsk))
          end
      end
  end.

(** GET /files/ *)
Definition list_documents (page page_size : Z)
    (status_filter : option DocumentStatus)
    (type_filter : option DocumentType)
    (d : Database) (current_user : UUID)
  : outcome DocumentListResponse :=
  (* Query(1, ge=1) and Query(20, ge=1, le=100) *)
  if (page <? 1) || (page_size <? 1) || (100 <? page_size) then
    Raised (HTTPException HTTP_422_UNPROCESSABLE_ENTITY)
  else
    let query := filter (λ row, owner_id row.2 = current_user) (all_documents d) in
    let query := where_opt status status_filter query in
    let query := where_opt document_type type_filter query in
    (* Get total count *)
    let count_result :=
      filter (λ row, owner_id row.2 = current_user) (all_documents d) in
    let total := Z.of_nat (length count_result) in
    (* Apply pagination *)
    let offset := (page - 1) * page_size in
    let documents :=
      take (Z.to_nat page_size)
        (drop (Z.to_nat offset)
           (merge_sort (λ a b, created_at b.2 <= created_at a.2) query)) in
    Returned {| documents := detail_response <$> documents;
                total := total;
                page := page;
                page_size := page_size |}.

(** GET /files/{document_id} *)
Definition get_document (document_id : UUID) (d : Database)
    (current_user : UUID) : outcome DocumentDetailResponse :=
  match document d !! document_id with
  | None => Raised (HTTPException HTTP_404_NOT_FOUND)
  | Some doc =>
      (* Check access *)
      if bool_decide (owner_id doc ≠ current_user) && negb (is_public doc) then
        Raised (HTTPException HTTP_403_FORBIDDEN)
      else Returned (detail_response (document_id, doc))
  end.

(** *** POST /files/{document_id}/version *)

(** The unit of work of the request: the loaded document, which the
    handler changes in place, and the rows added to the session. *)
Record Session := {
  obj : Document;
  new : list DocumentVersion;
}.

Definition next_version_of (current_versions : list DocumentVersion) : Z :=
  py_max (version_number <$> current_versions) 0 + 1.

(** Create version record for current state before updating. *)
Definition version_record (env : Env) (document_id : UUID) (doc : Document)
    (next_version : Z) (change_summary : option string)
    (current_user : UUID) : DocumentVersion :=
  {| dv_id := uuid4_row env;
     dv_document_id := document_id;
     version_number := if next_version >? 1 then next_version - 1 else 1;
     dv_file_path := file_path doc;
     dv_file_size := file_size doc;
     dv_checksum := str_or (checksum doc) EmptyString;
     change_summary := change_summary;
     created_by_id := current_user;
     dv_created_at := utcnow env |}.

(** [db.add(version)] on the session that loaded [doc]. *)
Definition queue_snapshot (env : Env) (document_id : UUID) (doc : Document)
    (current_versions : list DocumentVersion)
    (change_summary : option string) (current_user : UUID) : Session :=
  let next_version := next_version_of current_versions in
  {| obj := doc;
     new := [version_record env document_id doc next_version change_summary
               current_user] |}.

(** Update document with new file info. *)
Definition overwrite_file_fields (file : UploadFile) (file_path : string)
    (file_size : Z) (checksum : string) (s : Session) : Session :=
  let doc := obj s in
  {| obj :=
       {| title := title doc;
          description := description doc;
          document_type := document_type doc;
          status := status doc;
          file_path := file_path;
          file_name := str_or (filename file) (file_name doc);
          file_size := file_size;
          mime_type := str_or (content_type file) (mime_type doc);
          checksum := Some checksum;
          is_public := is_public doc;
          download_count := download_count doc;
          created_at := created_at doc;
          updated_at := updated_at doc;
          owner_id := owner_id doc;
          subtype := subtype doc |};
     new := new s |}.

Definition with_subtype (doc : Document) (sub : Subtype) : Document :=
  {| title := title doc; description := description doc;
     document_type := document_type doc; status := status doc;
     file_path := file_path doc; file_name := file_name doc;
     file_size := file_size doc; mime_type := mime_type doc;
     checksum := checksum doc; is_public := is_public doc;
     download_count := download_count doc; created_at := created_at doc;
     updated_at := updated_at doc; owner_id := owner_id doc;
     subtype := sub |}.

(** Update type-specific metadata. *)
Definition update_subtype (dsk : Disk) (file_path : string) (s : Session)
  : outcome Session :=
  match subtype (obj s) with
  | TextDocument c =>
      (text_metadata <- extract_text_metadata dsk file_path ;;
       Returned {| obj := with_subtype (obj s)
                            (TextDocument (set_text_columns c text_metadata));
                   new := new s |})%outcome
  | PDFDocument c =>
      (pdf_metadata <- extract_pdf_metadata dsk file_path ;;
       Returned {| obj := with_subtype (obj s)
                            (PDFDocument (set_pdf_columns c pdf_metadata));
                   new := new s |})%outcome
  | BaseDocument => Returned s
  end.

(** [await db.commit(); await db.refresh(document)]: the changed document
    is written with [updated_at] set by [onupdate], the new rows are
    appended. *)
Definition touched (env : Env) (doc : Document) : Document :=
  {| title := title doc; description := description doc;
     document_type := document_type doc; status := status doc;
     file_path := file_path doc; file_name := file_name doc;
     file_size := file_size doc; mime_type := mime_type doc;
     checksum := checksum doc; is_public := is_public doc;
     download_count := download_count doc; created_at := created_at doc;
     updated_at := utcnow env; owner_id := owner_id doc;
     subtype := subtype doc |}.

Definition commit_session (env : Env) (document_id : UUID) (s : Session)
    (d : Database) : outcome (Document * Database) :=
  if commit_raises env
     || bool_decide (Exists (λ v, dv_id v ∈ dv_id <$> document_version d) (new s))
  then Raised SQLAlchemyError
  else
    let doc := touched env (obj s) in
    Returned (doc,
              {| document := <[document_id := doc]> (document d);
                 document_version := document_version d ++ new s |}).

Definition upload_new_version (env : Env) (document_id : UUID)
    (file : UploadFile) (change_summary : option string)
    (current_user : UUID) (w : World)
  : outcome DocumentUploadResponse * World :=
  match document (db w) !! document_id with
  | None => (Raised (HTTPException HTTP_404_NOT_FOUND), w)
  | Some doc =>
      if bool_decide (owner_id doc ≠ current_user) then
        (Raised (HTTPException HTTP_403_FORBIDDEN), w)
      else
        match validate_file file with
        | Raised e => (Raised e, w)
        | Returned _ =>
            let current_versions := versions (db w) document_id in
            let s := queue_snapshot env document_id doc current_versions
                       change_summary current_user in
            (* Save new file *)
            match save_upload_file env file current_user (disk w) with
            | (Raised e, dsk) => (Raised e, with_disk w dsk)
            | (Returned (file_path, file_size, checksum), dsk) =>
                let s := overwrite_file_fields file file_path file_size
                           checksum s in
                match
                  (s <- update_subtype dsk file_path s ;;
                   commit_session env document_id s (db w))%outcome
                with
                | Returned (doc', db') =>
                    (Returned (upload_response document_id doc'),
                     {| disk := dsk; db := db' |})
                | Raised e => (Raised e, with_disk w dsk)
                end
            end
        end
  end.

(** [uploads document_id w n w']: [n] version uploads to the document,
    one after the other and each answered with a response, lead from the
    world [w] to [w']. *)
Inductive uploads (document_id : UUID) : World -> nat -> World -> Prop :=
| uploads_none w : uploads document_id w 0 w
| uploads_more w n w1 env file change_summary current_user resp w2 :
    uploads document_id w n w1 ->
    upload_new_version env document_id file change_summary current_user w1
      = (Returned resp, w2) ->
    uploads document_id w (S n) w2.

End Handlers.

(** ** schema/file.py: the remaining helper and handlers *)

(** The loop [while chunk := await f.read(8192): sha256_hash.update(chunk)]
    of [compute_file_checksum]. *)
Equations? hash_chunks (stream : bytes) (sha256_hash : hashlib.sha256)
  : hashlib.sha256 by wf (length stream) lt :=
hash_chunks [] sha256_hash := sha256_hash;
hash_chunks (b :: rest) sha256_hash :=
  hash_chunks (drop CHUNK (b :: rest))
    (hashlib.update sha256_hash (take CHUNK (b :: rest))).
Proof.
  rewrite length_drop.
  assert (0 < CHUNK)%nat by (apply Nat.ltb_lt; vm_compute; reflexivity).
  simpl length. lia.
Qed.

(** [compute_file_checksum]: opening a file that is not there raises. *)
Definition compute_file_checksum (dsk : Disk) (file_path : string)
  : outcome string :=
  match dsk !! file_path with
  | None => Raised FileNotFoundError
  | Some content => Returned (hashlib.hexdigest (hash_chunks content hashlib.new))
  end.

#[global] Instance pyval_eq_dec : EqDecision pyval.
Proof. solve_decision. Defined.
#[global] Instance TextColumns_eq_dec : EqDecision TextColumns.
Proof. solve_decision. Defined.
#[global] Instance PDFColumns_eq_dec : EqDecision PDFColumns.
Proof. solve_decision. Defined.
#[global] Instance Subtype_eq_dec : EqDecision Subtype.
Proof. solve_decision. Defined.
#[global] Instance Document_eq_dec : EqDecision Document.
Proof. solve_decision. Defined.

(** [DocumentUpdateRequest]: a field is [None] when the request does not
    set it, [Some None] when the request sets it to null. *)
Record DocumentUpdateRequest := {
  u_title : option (option string);
  u_description : option (option string);
  u_status : option (option DocumentStatus);
  u_is_public : option (option bool);
}.

(** [Field(None, max_length=500)] on the title. *)
Definition valid_update (update_data : DocumentUpdateRequest) : bool :=
  match u_title update_data with
  | Some (Some t) => Py.len t <=? 500
  | _ => true
  end.

(** [setattr(document, field, value)] for the fields of
    [model_dump(exclude_unset=True)]. A null in a column that is not
    nullable is kept apart: the commit rejects it. *)
Definition patched (update_data : DocumentUpdateRequest) (doc : Document)
  : Document :=
  {| title := match u_title update_data with
              | Some (Some t) => t | _ => title doc end;
     description := match u_description update_data with
                    | Some v => v | None => description doc end;
     document_type := document_type doc;
     status := match u_status update_data with
               | Some (Some s) => s | _ => status doc end;
     file_path := file_path doc; file_name := file_name doc;
     file_size := file_size doc; mime_type := mime_type doc;
     checksum := checksum doc;
     is_public := match u_is_public update_data with
                  | Some (Some b) => b | _ => is_public doc end;
     download_count := download_count doc; created_at := created_at doc;
     updated_at := updated_at doc; owner_id := owner_id doc;
     subtype := subtype doc |}.

Definition sets_null_in_required_column (update_data : DocumentUpdateRequest)
  : bool :=
  match u_title update_data with Some None => true | _ => false end
  || match u_status update_data with Some None => true | _ => false end
  || match u_is_public update_data with Some None => true | _ => false end.

Definition set_updated_at (now : Z) (doc : Document) : Document :=
  {| title := title doc; description := description doc;
     document_type := document_type doc; status := status doc;
     file_path := file_path doc; file_name := file_name doc;
     file_size := file_size doc; mime_type := mime_type doc;
     checksum := checksum doc; is_public := is_public doc;
     download_count := download_count doc; created_at := created_at doc;
     updated_at := now; owner_id := owner_id doc;
     subtype := subtype doc |}.

(** PATCH /files/{document_id}. The row is written, with [updated_at] set
    by [onupdate], when a column has changed. *)
Definition update_document (env : Env) (document_id : UUID)
    (update_data : DocumentUpdateRequest) (d : Database) (current_user : UUID)
  : outcome DocumentDetailResponse * Database :=
  if negb (valid_update update_data) then
    (Raised (HTTPException HTTP_422_UNPROCESSABLE_ENTITY), d)
  else
    match document d !! document_id with
    | None => (Raised (HTTPException HTTP_404_NOT_FOUND), d)
    | Some doc =>
        if bool_decide (owner_id doc ≠ current_user) then
          (Raised (HTTPException HTTP_403_FORBIDDEN), d)
        else if commit_raises env || sets_null_in_required_column update_data
        then (Raised SQLAlchemyError, d)
        else
          let doc' := patched update_data doc in
          let doc' := if bool_decide (doc' = doc) then doc
                      else set_updated_at (utcnow env) doc' in
          (Returned (detail_response (document_id, doc')),
           {| document := <[document_id := doc']> (document d);
              document_version := document_version d |})
    end.

(** DELETE /files/{document_id}. The file goes first, then the row; the
    rows of [document_version] that point to the document go with it
    (the relationship cascades). The answer has no content. *)
Definition delete_document (env : Env) (document_id : UUID) (w : World)
    (current_user : UUID) : outcome unit * World :=
  match document (db w) !! document_id with
  | None => (Raised (HTTPException HTTP_404_NOT_FOUND), w)
  | Some doc =>
      if bool_decide (owner_id doc ≠ current_user) then
        (Raised (HTTPException HTTP_403_FORBIDDEN), w)
      else
        (* Delete file from disk *)
        let dsk := delete (file_path doc) (disk w) in
        (* Delete from database *)
        if commit_raises env then
          (Raised SQLAlchemyError, {| disk := dsk; db := db w |})
        else
          (Returned (),
           {| disk := dsk;
              db := {| document := delete document_id (document (db w));
                       document_version :=
                         filter (λ v, dv_document_id v ≠ document_id)
                           (document_version (db w)) |} |})
  end.

(** ** Proof steps *)

(** Case analysis on a decidable proposition, with every [bool_decide] of it
    replaced by its value. *)
Ltac split_decide P :=
  destruct (decide P);
  [rewrite ?(bool_decide_eq_true_2 P) in * by assumption
  |rewrite ?(bool_decide_eq_false_2 P) in * by assumption].

(** ** Sample data *)

(** A database with one private document of user u1. *)
Definition private_doc : Document :=
  {| title := "Test Document"; description := Some "A test document";
     document_type := TEXT; status := DRAFT;
     file_path := "/fake/path/test.txt"; file_name := "test.txt";
     file_size := 1024; mime_type := "text/plain"; checksum := Some "abc123";
     is_public := false; download_count := 0; created_at := 10;
     updated_at := 10; owner_id := "u1"; subtype := BaseDocument |}.

Definition one_private_doc : Database :=
  {| document := {[ "d1" := private_doc ]}; document_version := [] |}.

(** Settings with the default limit of 50 MB and with a limit of 10 bytes. *)
Definition default_settings : BaseConfig :=
  {| UPLOAD_DIR := "/app/uploads"; MAX_UPLOAD_SIZE := 50 * 1024 * 1024 |}.

Definition tiny_settings : BaseConfig :=
  {| UPLOAD_DIR := "/app/uploads"; MAX_UPLOAD_SIZE := 10 |}.

(** The environment of a request in May 2024. *)
Definition env_at (now : Z) (file_uuid row_uuid : string) : Env :=
  {| utcnow := now; utcnow_Ym := "2024/05"; uuid4_filename := file_uuid;
     uuid4_row := row_uuid; commit_raises := false |}.

(** An upload named notes.txt with the given content. *)
Definition notes_txt (content : string) : UploadFile :=
  {| filename := Some "notes.txt"; content_type := Some "text/plain";
     file := list_byte_of_string content |}.

Definition empty_world : World :=
  {| disk := ∅; db := {| document := ∅; document_version := [] |} |}.

(** A row that a list request of [user] with the given filters selects. *)
Definition selected (user : UUID) (status_filter : option DocumentStatus)
    (type_filter : option DocumentType) (row : UUID * Document) : Prop :=
  owner_id row.2 = user
  ∧ from_option (λ s, status row.2 = s) True status_filter
  ∧ from_option (λ t, document_type row.2 = t) True type_filter.

#[global] Instance selected_dec user status_filter type_filter row :
  Decision (selected user status_filter type_filter row).
Proof. unfold selected. destruct status_filter, type_filter; simpl; apply _. Defined.

(** The private document of u1, published. *)
Definition published_doc : Document :=
  {| title := "Report"; description := None;
     document_type := PDF; status := PUBLISHED;
     file_path := "/fake/path/report.pdf"; file_name := "report.pdf";
     file_size := 2048; mime_type := "application/pdf"; checksum := Some "def456";
     is_public := false; download_count := 0; created_at := 20;
     updated_at := 20; owner_id := "u1"; subtype := BaseDocument |}.

(** A database with a draft and a published document of user u1. *)
Definition two_docs : Database :=
  {| document := {[ "d1" := private_doc; "d2" := published_doc ]};
     document_version := [] |}.

(** The world after user u1 has uploaded notes.txt, and after each of three
    version uploads to that document. *)
Definition world_1 : World :=
  (upload_document default_settings None (env_at 1 "f1" "d1")
     (notes_txt "Hello") None None false "u1" empty_world).2.

Definition version_upload (now : Z) (file_uuid row_uuid content : string)
    (w : World) : outcome DocumentUploadResponse * World :=
  upload_new_version default_settings None (env_at now file_uuid row_uuid)
    "d1" (notes_txt content) None "u1" w.

Definition world_2 : World := (version_upload 2 "f2" "v1" "Two" world_1).2.
Definition world_3 : World := (version_upload 3 "f3" "v2" "Three" world_2).2.
Definition world_4 : World := (version_upload 4 "f4" "v3" "Four" world_3).2.

(** The response to a version upload of the given size. *)
Definition version_response (size : Z) : DocumentUploadResponse :=
  {| up_id := "d1"; up_title := "notes"; up_file_name := "notes.txt";
     up_file_size := size; up_mime_type := "text/plain";
     up_document_type := "text"; up_status := "draft"; up_created_at := 1 |}.

(** Two rows of the same concrete class. *)
Definition same_class (a b : Subtype) : Prop :=
  match a, b with
  | BaseDocument, BaseDocument => True
  | TextDocument _, TextDocument _ => True
  | PDFDocument _, PDFDocument _ => True
  | _, _ => False
  end.

(** The two documents of u1 with their files on disk. *)
Definition world_two_docs : World :=
  {| disk := {[ "/fake/path/test.txt" := list_byte_of_string "draft";
                "/fake/path/report.pdf" := list_byte_of_string "report" ]};
     db := two_docs |}.

(** A request that publishes a document and leaves the rest. *)
Definition publish_request : DocumentUpdateRequest :=
  {| u_title := None; u_description := None;
     u_status := Some (Some PUBLISHED); u_is_public := Some (Some true) |}.

(** A disk with the notes of the example, written with CR LF. *)
Definition notes_disk : Disk :=
  {[ "/u/notes.txt" :=
       list_byte_of_string "Hello world" ++ [x0d; x0a]
       ++ list_byte_of_string "Second line" ]}.

(** A reader of two pages: the text of the first cannot be extracted, the
    second reads "ok". *)
Definition two_page_reader : PdfReader :=
  {| pages := Returned [ {| extract_text := Raised PdfReadError |};
                         {| extract_text := Returned [111; 107]%N |} ];
     reader_is_encrypted := Returned false;
     pdf_header := Returned "%PDF-1.4";
     metadata := Returned None |}.

(** The characters of a hexadecimal digest. *)
Definition hex_digits : list ascii := list_ascii_of_string "0123456789abcdef".

(** * Properties *)

(** ** Strings *)

Module PyFacts.

Lemma isspace_lower_char c : Py.isspace (Py.lower_char c) = Py.isspace c.
Proof. destruct c as [[] [] [] [] [] [] [] []]; reflexivity. Qed.

Lemma lower_char_idem c : Py.lower_char (Py.lower_char c) = Py.lower_char c.
Proof. destruct c as [[] [] [] [] [] [] [] []]; reflexivity. Qed.

Lemma lower_char_comma c : Py.lower_char c = ","%char -> c = ","%char.
Proof. destruct c as [[] [] [] [] [] [] [] []]; vm_compute; congruence. Qed.

Lemma lower_idem s : Py.lower (Py.lower s) = Py.lower s.
Proof. induction s as [|c s IH]; simpl; [done|]. by rewrite lower_char_idem, IH. Qed.

Lemma lower_empty s : Py.lower s = EmptyString -> s = EmptyString.
Proof. by destruct s. Qed.

(** A string without leading whitespace is left alone by [lstrip]. *)
Lemma lstrip_idem s : Py.lstrip (Py.lstrip s) = Py.lstrip s.
Proof.
  induction s as [|c s IH]; simpl; [done|].
  destruct (Py.isspace c) eqn:E; [done|]. simpl. by rewrite E.
Qed.

Lemma rstrip_idem s : Py.rstrip (Py.rstrip s) = Py.rstrip s.
Proof.
  induction s as [|c s IH]; simpl; [done|].
  destruct (Py.rstrip s) as [|c' r'] eqn:E.
  - destruct (Py.isspace c) eqn:Ec; simpl; [done|]. by rewrite Ec.
  - simpl in *. by rewrite IH.
Qed.

(** Stripping on the right keeps the first character, if any is kept. *)
Lemma lstrip_rstrip s : Py.lstrip (Py.rstrip (Py.lstrip s)) = Py.rstrip (Py.lstrip s).
Proof.
  induction s as [|c s IH]; simpl; [done|].
  destruct (Py.isspace c) eqn:Ec; [done|].
  simpl. destruct (Py.rstrip s); rewrite ?Ec; simpl; by rewrite Ec.
Qed.

Lemma strip_idem s : Py.strip (Py.strip s) = Py.strip s.
Proof. unfold Py.strip. by rewrite lstrip_rstrip, rstrip_idem. Qed.

Lemma lstrip_lower s : Py.lstrip (Py.lower s) = Py.lower (Py.lstrip s).
Proof.
  induction s as [|c s IH]; simpl; [done|].
  rewrite isspace_lower_char. by destruct (Py.isspace c).
Qed.

Lemma rstrip_lower s : Py.rstrip (Py.lower s) = Py.lower (Py.rstrip s).
Proof.
  induction s as [|c s IH]; simpl; [done|].
  rewrite IH, isspace_lower_char.
  destruct (Py.rstrip s); simpl; [by destruct (Py.isspace c)|done].
Qed.

Lemma strip_lower s : Py.strip (Py.lower s) = Py.lower (Py.strip s).
Proof. unfold Py.strip. by rewrite lstrip_lower, rstrip_lower. Qed.

Lemma contains_lstrip c s : Py.contains c (Py.lstrip s) -> Py.contains c s.
Proof.
  induction s as [|c' s IH]; simpl; [done|].
  destruct (Py.isspace c'); simpl; tauto.
Qed.

Lemma contains_rstrip c s : Py.contains c (Py.rstrip s) -> Py.contains c s.
Proof.
  induction s as [|c' s IH]; simpl; [done|].
  destruct (Py.rstrip s) eqn:E.
  - destruct (Py.isspace c'); simpl; tauto.
  - simpl in *. tauto.
Qed.

Lemma contains_strip c s : Py.contains c (Py.strip s) -> Py.contains c s.
Proof. intros H. by apply contains_lstrip, contains_rstrip. Qed.

Lemma contains_lower_comma s : Py.contains "," (Py.lower s) -> Py.contains "," s.
Proof.
  induction s as [|c s IH]; simpl; [done|].
  intros [H|H]; [left; by apply lower_char_comma|right; auto].
Qed.

(** [split] cuts at every separator and nowhere else. *)
Lemma split_not_nil sep s : Py.split sep s <> [].
Proof.
  induction s as [|c s IH]; simpl; [done|].
  destruct (Ascii.eqb c sep); [done|]. by destruct (Py.split sep s).
Qed.

Lemma split_no_sep sep s tok : tok ∈ Py.split sep s -> ~ Py.contains sep tok.
Proof.
  revert tok. induction s as [|c s IH]; simpl; intros tok.
  - intros ->%list_elem_of_singleton. simpl. tauto.
  - destruct (Ascii.eqb_spec c sep) as [->|Hne].
    + intros [->|H]%elem_of_cons; [simpl; tauto|by apply IH].
    + destruct (Py.split sep s) as [|h t] eqn:E.
      * by destruct (split_not_nil sep s).
      * intros [->|H]%elem_of_cons.
        -- simpl. intros [?|?]; [done|]. apply (IH h); [left|done].
        -- apply IH. by right.
Qed.

Lemma join_split sep s : Py.join (String sep EmptyString) (Py.split sep s) = s.
Proof.
  induction s as [|c s IH]; simpl; [done|].
  destruct (Ascii.eqb_spec c sep) as [->|Hne].
  - destruct (Py.split sep s) eqn:E; [by destruct (split_not_nil sep s)|].
    simpl in *. by rewrite IH.
  - destruct (Py.split sep s) as [|h [|h' t]] eqn:E.
    + by destruct (split_not_nil sep s).
    + simpl in *. by rewrite IH.
    + simpl in *. by rewrite <- IH.
Qed.

End PyFacts.

(** ** The tag parser *)

Module TaggingFacts.
Import DocumentTaggingWorkflow.

(** The loop with its [seen] set computes [keep_first_seen]. *)
Lemma dedup_loop (l : list string) (seen : gset string) (acc : list string) :
  (foldl dedup_step (seen, acc) l).2
  = acc ++ filter (λ y, y ∉ seen) (keep_first_seen l).
Proof.
  revert seen acc. induction l as [|x l IH]; intros seen acc; simpl.
  - by rewrite app_nil_r.
  - unfold dedup_step at 2. simpl. destruct (decide (x ∈ seen)) as [Hin|Hout].
    + rewrite IH. f_equal. rewrite filter_cons_False by (intros Hx; by apply Hx).
      rewrite list_filter_filter. apply list_filter_iff.
      intros y. simpl. split; [|by intros [? ?]]. intros Hy. split; [done|]. by intros ->.
    + rewrite IH. rewrite filter_cons_True by done.
      rewrite <- app_assoc. simpl. do 2 f_equal.
      rewrite list_filter_filter. apply list_filter_iff.
      intros y. simpl. rewrite elem_of_union, elem_of_singleton. tauto.
Qed.

Lemma dedup_loop_start (l : list string) :
  (foldl dedup_step (∅, []) l).2 = keep_first_seen l.
Proof.
  rewrite dedup_loop. simpl.
  induction (keep_first_seen l) as [|y k IH]; [done|].
  rewrite filter_cons_True by set_solver. by rewrite IH.
Qed.

Lemma keep_first_seen_elem (l : list string) x :
  x ∈ keep_first_seen l ↔ x ∈ l.
Proof.
  induction l as [|y l IH]; simpl; [done|].
  rewrite !elem_of_cons, list_elem_of_filter, IH.
  destruct (decide (x = y)); tauto.
Qed.

Lemma keep_first_seen_NoDup (l : list string) : NoDup (keep_first_seen l).
Proof.
  induction l as [|y l IH]; simpl; [constructor|].
  constructor.
  - rewrite list_elem_of_filter. tauto.
  - by apply NoDup_filter.
Qed.

(** The first occurrence is the one that stays: what comes before the
    first [x] of [l] also comes before [x] in the result. *)
Lemma keep_first_seen_app (l1 l2 : list string) :
  keep_first_seen (l1 ++ l2)
  = keep_first_seen l1 ++ filter (λ y, y ∉ l1) (keep_first_seen l2).
Proof.
  induction l1 as [|x l1 IH]; simpl.
  - induction (keep_first_seen l2) as [|y k IHk]; [done|].
    rewrite filter_cons_True by set_solver. by rewrite <- IHk.
  - f_equal. rewrite IH, filter_app. f_equal.
    rewrite list_filter_filter. apply list_filter_iff.
    intros y. simpl. rewrite elem_of_cons. tauto.
Qed.

End TaggingFacts.

(** C4. The tag parser splits the stripped response at the commas, strips
    and lower-cases the tokens that are not blank, keeps the first occurrence
    of each tag in the order of appearance, and returns the first seven.
    Every tag it returns is non-empty, trimmed, lower-case and free of
    commas, and no tag comes twice; the response
    "technology, Python, Web Development, technology" gives
    technology, python, web development. *)
Theorem C4_parse_tags_from_response (response : string) :
  let tokens := Py.split "," (Py.strip response) in
  let cleaned :=
    (λ tok, Py.lower (Py.strip tok)) <$>
      filter (λ tok, Py.strip tok ≠ EmptyString) tokens in
  let result := DocumentTaggingWorkflow._parse_tags_from_response response in
  result = take 7 (DocumentTaggingWorkflow.keep_first_seen cleaned)
  ∧ Py.join "," tokens = Py.strip response
  ∧ (length result <= 7)%nat
  ∧ NoDup result
  ∧ (∀ tag, tag ∈ result →
       tag ≠ EmptyString ∧ Py.strip tag = tag ∧ Py.lower tag = tag
       ∧ ¬ Py.contains "," tag
       ∧ ∃ tok, tok ∈ tokens ∧ tag = Py.lower (Py.strip tok))
  ∧ (∀ tag, tag ∈ cleaned → (length (DocumentTaggingWorkflow.keep_first_seen cleaned) <= 7)%nat →
       tag ∈ result)
  ∧ DocumentTaggingWorkflow._parse_tags_from_response
      "technology, Python, Web Development, technology"
    = ["technology"; "python"; "web development"].
Proof.
  intros tokens cleaned result.
  assert (Hres : result = take 7 (DocumentTaggingWorkflow.keep_first_seen cleaned)).
  { unfold result, DocumentTaggingWorkflow._parse_tags_from_response.
    rewrite TaggingFacts.dedup_loop_start. unfold cleaned, tokens.
    f_equal. f_equal. f_equal.
    apply list_filter_iff. intros tok. by destruct (Py.strip tok). }
  split; [done|]. split; [apply PyFacts.join_split|].
  split; [rewrite Hres, length_take; lia|].
  split.
  { rewrite Hres. eapply sublist_NoDup; [|apply sublist_take].
    apply TaggingFacts.keep_first_seen_NoDup. }
  split.
  { intros tag Htag. rewrite Hres in Htag.
    apply subseteq_take in Htag.
    apply (proj1 (TaggingFacts.keep_first_seen_elem _ _)) in Htag.
    unfold cleaned in Htag.
    apply list_elem_of_fmap in Htag as (tok & -> & Htok).
    apply list_elem_of_filter in Htok as [Hne Htok].
    split; [by intros ?%PyFacts.lower_empty|].
    split; [by rewrite PyFacts.strip_lower, PyFacts.strip_idem|].
    split; [apply PyFacts.lower_idem|].
    split; [|by exists tok].
    intros Hc%PyFacts.contains_lower_comma%PyFacts.contains_strip.
    by apply (PyFacts.split_no_sep _ _ _ Htok). }
  split.
  { intros tag Htag Hlen. rewrite Hres, take_ge by done.
    by apply TaggingFacts.keep_first_seen_elem. }
  vm_compute. reflexivity.
Qed.

(** ** Classification of an upload *)

(** C6 (as stated, refuted). The extension does not win only when the MIME
    type is missing or the catch-all type: a Markdown extension decides
    against the MIME type text/plain, and a PDF extension against the MIME
    type text/markdown. *)
Lemma C6_extension_wins_over_named_mime :
  get_document_type_from_mime "text/plain" "document.md" = MARKDOWN
  ∧ get_document_type_from_mime "text/markdown" "paper.pdf" = PDF
  ∧ ¬ (∀ mime_type filename,
         mime_type ≠ "application/octet-stream" →
         get_document_type_from_mime mime_type filename
         = get_document_type_from_mime mime_type EmptyString).
Proof.
  split; [by vm_compute|]. split; [by vm_compute|].
  intros H. specialize (H "text/plain" "document.md").
  vm_compute in H. by specialize (H ltac:(discriminate)).
Qed.

(** C6 (amended). The type is found by testing PDF, then Markdown, then
    HTML: a type is chosen as soon as the MIME type or the lower-cased
    extension of the file name is one of that type. What matches none of
    them is plain text; under the catch-all MIME type the extension alone
    decides. *)
Theorem C6_document_type_classification (mime_type filename : string) :
  let extension := Py.lower (Path.suffix filename) in
  let is_pdf := mime_type = "application/pdf" ∨ extension = ".pdf" in
  let is_md := mime_type = "text/markdown" ∨ extension = ".md" in
  let is_html :=
    mime_type = "text/html" ∨ extension = ".html" ∨ extension = ".htm" in
  let t := get_document_type_from_mime mime_type filename in
  (t = PDF ↔ is_pdf)
  ∧ (t = MARKDOWN ↔ ¬ is_pdf ∧ is_md)
  ∧ (t = HTML ↔ ¬ is_pdf ∧ ¬ is_md ∧ is_html)
  ∧ (t = TEXT ↔ ¬ is_pdf ∧ ¬ is_md ∧ ¬ is_html)
  ∧ (mime_type = "application/octet-stream" →
       t = (if bool_decide (extension = ".pdf") then PDF
            else if bool_decide (extension = ".md") then MARKDOWN
            else if bool_decide (extension = ".html")
                    || bool_decide (extension = ".htm") then HTML
            else TEXT)).
Proof.
  intros extension is_pdf is_md is_html t.
  unfold t, get_document_type_from_mime. fold extension.
  assert (Hh : bool_decide (extension ∈ ({[".html"; ".htm"]} : gset string))
               = bool_decide (extension = ".html")
                 || bool_decide (extension = ".htm")).
  { rewrite <- bool_decide_or. apply bool_decide_ext. set_solver. }
  rewrite Hh. clear Hh. unfold is_pdf, is_md, is_html.
  split_decide (mime_type = "application/pdf");
    split_decide (extension = ".pdf");
    split_decide (mime_type = "text/markdown");
    split_decide (extension = ".md");
    split_decide (mime_type = "text/html");
    split_decide (extension = ".html");
    split_decide (extension = ".htm");
    simpl orb; cbv iota;
    (split_and!; [split; intros; try done; try tauto; congruence ..
                 |intros; try done; congruence]).
Qed.

(** ** Access to one document *)


(** C5 (as stated, refuted). A request of another user for an identifier
    that names no document is answered with not found, not with forbidden. *)
Lemma C5_absent_document_is_not_found :
  document one_private_doc !! "d2" = None
  ∧ get_document "d2" one_private_doc "u2"
    = Raised (HTTPException HTTP_404_NOT_FOUND)
  ∧ get_document "d2" one_private_doc "u2"
    ≠ Raised (HTTPException HTTP_403_FORBIDDEN).
Proof. split; [by vm_compute|]. split; [by vm_compute|]. by vm_compute. Qed.

(** C5 (amended). A private document that exists is returned to its owner
    and to nobody else: every other user gets forbidden. An identifier that
    names no document gets not found, whoever asks. *)
Theorem C5_private_document_access (d : Database) (document_id user : UUID) :
  (document d !! document_id = None →
     get_document document_id d user
     = Raised (HTTPException HTTP_404_NOT_FOUND))
  ∧ (∀ doc, document d !! document_id = Some doc → is_public doc = false →
       (owner_id doc = user →
          get_document document_id d user
          = Returned (detail_response (document_id, doc)))
       ∧ (owner_id doc ≠ user →
            get_document document_id d user
            = Raised (HTTPException HTTP_403_FORBIDDEN))
       ∧ (∀ r, get_document document_id d user = Returned r →
            owner_id doc = user)).
Proof.
  unfold get_document. split.
  - by intros ->.
  - intros doc -> Hpriv. rewrite Hpriv. simpl.
    destruct (decide (owner_id doc = user)) as [Heq|Hne].
    + rewrite bool_decide_eq_false_2 by (by intros ?). simpl. by split_and!.
    + rewrite bool_decide_eq_true_2 by done. simpl. by split_and!.
Qed.

Lemma C5_private_document_access_witness :
  get_document "d1" one_private_doc "u1"
  = Returned (detail_response ("d1", private_doc))
  ∧ get_document "d1" one_private_doc "u2"
    = Raised (HTTPException HTTP_403_FORBIDDEN).
Proof.
  destruct (C5_private_document_access one_private_doc "d1" "u1") as [_ H1].
  destruct (C5_private_document_access one_private_doc "d1" "u2") as [_ H2].
  assert (Hl : document one_private_doc !! "d1" = Some private_doc)
    by (vm_compute; reflexivity).
  destruct (H1 private_doc Hl eq_refl) as (Hown & _ & _).
  destruct (H2 private_doc Hl eq_refl) as (_ & Hother & _).
  split; [apply Hown; reflexivity|apply Hother; vm_compute; discriminate].
Defined.

(** ** Saving an upload *)

Section SaveFacts.

Context (settings : BaseConfig).

Lemma update_app (h : hashlib.sha256) (a b : list byte) :
  hashlib.update (hashlib.update h a) b = hashlib.update h (a ++ b).
Proof. unfold hashlib.update. by rewrite fmap_app, foldl_app. Qed.

Lemma sha256_hexdigest_nil :
  hashlib.sha256_hexdigest [] = hashlib.hexdigest hashlib.new.
Proof.
  unfold hashlib.sha256_hexdigest, hashlib.update. simpl foldl. reflexivity.
Qed.

Lemma take_drop_length {A} (n : nat) (l : list A) :
  (length (take n l) + length (drop n l))%nat = length l.
Proof. rewrite <- length_app. by rewrite take_drop. Qed.

(** The loop, when everything fits: all that was to be read is appended to
    the file and fed to the hash, and counted. *)
Lemma write_chunks_fits (file_path : string) (stream : list byte) :
  ∀ (file_size : Z) (sha256_hash : hashlib.sha256) (written : list byte)
    (dsk : gmap string (list byte)),
    dsk !! file_path = Some written →
    file_size + Z.of_nat (length stream) <= MAX_UPLOAD_SIZE settings →
    write_chunks settings file_path stream file_size sha256_hash dsk
    = (Returned (file_size + Z.of_nat (length stream),
                 hashlib.update sha256_hash stream),
       <[file_path := written ++ stream]> dsk).
Proof.
  induction stream as [stream IH] using (induction_ltof1 _ (@length byte)).
  unfold ltof in IH.
  intros file_size sha256_hash written dsk Hdsk Hfit.
  destruct stream as [|b rest].
  - simp write_chunks. simpl length. rewrite Z.add_0_r, !app_nil_r.
    by rewrite insert_id.
  - simp write_chunks. cbv zeta.
    set (chunk := take CHUNK (b :: rest)).
    set (more := drop CHUNK (b :: rest)).
    assert (Hsplit : chunk ++ more = b :: rest) by apply take_drop.
    assert (Hlen : (length chunk + length more)%nat = length (b :: rest))
      by apply take_drop_length.
    assert (Hpos : (0 < length chunk)%nat).
    { unfold chunk. rewrite length_take.
      assert (0 < CHUNK)%nat by (apply Nat.ltb_lt; vm_compute; reflexivity).
      simpl length. lia. }
    destruct (Z.gtb_spec (file_size + Z.of_nat (length chunk))
                (MAX_UPLOAD_SIZE settings)) as [Hgt|Hle]; [lia|].
    rewrite (IH more) with (written := written ++ chunk).
    + rewrite update_app, <- Hsplit, !length_app, !app_assoc. f_equal.
      * f_equal. f_equal. lia.
      * apply map_eq. intros p. destruct (decide (p = file_path)) as [->|Hne].
        -- by rewrite !lookup_insert_eq.
        -- rewrite !lookup_insert_ne by done. by rewrite lookup_alter_ne.
    + lia.
    + by rewrite lookup_alter_eq, Hdsk.
    + lia.
Qed.

(** The loop, when the upload is too large: it stops with 413 and the
    file is gone. *)
Lemma write_chunks_too_large (file_path : string) (stream : list byte) :
  ∀ (file_size : Z) (sha256_hash : hashlib.sha256)
    (dsk : gmap string (list byte)),
    stream ≠ [] →
    file_size + Z.of_nat (length stream) > MAX_UPLOAD_SIZE settings →
    write_chunks settings file_path stream file_size sha256_hash dsk
    = (Raised (HTTPException HTTP_413_REQUEST_ENTITY_TOO_LARGE),
       delete file_path dsk).
Proof.
  induction stream as [stream IH] using (induction_ltof1 _ (@length byte)).
  unfold ltof in IH.
  intros file_size sha256_hash dsk Hne Hbig.
  destruct stream as [|b rest]; [done|].
  simp write_chunks. cbv zeta.
  set (chunk := take CHUNK (b :: rest)).
  set (more := drop CHUNK (b :: rest)).
  assert (Hlen : (length chunk + length more)%nat = length (b :: rest))
    by apply take_drop_length.
  assert (Hpos : (0 < length chunk)%nat).
  { unfold chunk. rewrite length_take.
    assert (0 < CHUNK)%nat by (apply Nat.ltb_lt; vm_compute; reflexivity).
    simpl length. lia. }
  destruct (Z.gtb_spec (file_size + Z.of_nat (length chunk))
              (MAX_UPLOAD_SIZE settings)) as [Hgt|Hle]; [done|].
  rewrite IH.
  - f_equal. apply map_eq. intros p.
    destruct (decide (p = file_path)) as [->|Hp].
    + by rewrite !lookup_delete_eq.
    + rewrite !lookup_delete_ne by done. by rewrite lookup_alter_ne.
  - lia.
  - intros Hmore. rewrite Hmore in Hlen. clearbody chunk more. clear IH. simpl length in *. lia.
  - lia.
Qed.

Lemma save_upload_file_fits env upload_file owner_id
    (dsk : gmap string (list byte)) :
  Z.of_nat (length (file upload_file)) <= MAX_UPLOAD_SIZE settings →
  save_upload_file settings env upload_file owner_id dsk
  = (Returned (upload_path settings env upload_file owner_id,
               Z.of_nat (length (file upload_file)),
               hashlib.sha256_hexdigest (file upload_file)),
     <[upload_path settings env upload_file owner_id := file upload_file]> dsk).
Proof.
  intros Hfit. unfold save_upload_file.
  rewrite write_chunks_fits with (written := []);
    [|apply lookup_insert_eq|lia].
  rewrite insert_insert_eq. simpl app. rewrite Nat2Z.inj_0 || idtac.
  reflexivity.
Qed.

Lemma save_upload_file_too_large env upload_file owner_id
    (dsk : gmap string (list byte)) :
  file upload_file ≠ [] →
  Z.of_nat (length (file upload_file)) > MAX_UPLOAD_SIZE settings →
  save_upload_file settings env upload_file owner_id dsk
  = (Raised (HTTPException HTTP_413_REQUEST_ENTITY_TOO_LARGE),
     delete (upload_path settings env upload_file owner_id) dsk).
Proof.
  intros Hne Hbig. unfold save_upload_file.
  rewrite write_chunks_too_large by (done || lia).
  by rewrite delete_insert_eq.
Qed.

Lemma update_nil (h : hashlib.sha256) : hashlib.update h [] = h.
Proof. reflexivity. Qed.

(** What the loop has done when it returns. *)
Lemma write_chunks_Returned (file_path : string) (stream : list byte)
    (file_size : Z) (sha256_hash : hashlib.sha256) (written : list byte)
    (dsk dsk' : gmap string (list byte)) file_size' sha256_hash' :
  dsk !! file_path = Some written →
  write_chunks settings file_path stream file_size sha256_hash dsk
  = (Returned (file_size', sha256_hash'), dsk') →
  file_size' = file_size + Z.of_nat (length stream)
  ∧ sha256_hash' = hashlib.update sha256_hash stream
  ∧ dsk' = <[file_path := written ++ stream]> dsk.
Proof.
  intros Hdsk Hw.
  destruct (decide (stream = [])) as [->|Hne].
  - simp write_chunks in Hw. injection Hw as <- <- <-.
    rewrite update_nil, app_nil_r, insert_id by done.
    simpl length. split_and!; [lia|done|done].
  - destruct (Z_le_gt_dec (file_size + Z.of_nat (length stream))
                (MAX_UPLOAD_SIZE settings)) as [Hle|Hgt].
    + rewrite (write_chunks_fits _ _ _ _ written) in Hw by done.
      by injection Hw as <- <- <-.
    + rewrite write_chunks_too_large in Hw by done. discriminate.
Qed.

(** What a save that returns has done. *)
Lemma save_upload_file_Returned env upload_file owner_id
    (dsk dsk' : gmap string (list byte)) p sz sum :
  save_upload_file settings env upload_file owner_id dsk
  = (Returned (p, sz, sum), dsk') →
  p = upload_path settings env upload_file owner_id
  ∧ sz = Z.of_nat (length (file upload_file))
  ∧ sum = hashlib.sha256_hexdigest (file upload_file)
  ∧ dsk' = <[p := file upload_file]> dsk.
Proof.
  unfold save_upload_file, hashlib.sha256_hexdigest.
  generalize hashlib.new. intros h0.
  destruct (write_chunks _ _ _ _ h0 _) as [[[fs sha]|e] d] eqn:Hw;
    [|discriminate].
  intros Hsave. injection Hsave as <- <- <- <-.
  apply (write_chunks_Returned _ _ _ _ []) in Hw as (-> & -> & ->);
    [|apply lookup_insert_eq].
  rewrite insert_insert_eq. simpl app. split_and!; [done|lia|done|done].
Qed.

End SaveFacts.

(** C8. With a size limit that is not negative, an upload of more bytes than
    the limit is refused with 413 and leaves no file behind: the disk is as
    before with nothing at the path of the upload. An upload within the
    limit is never refused: it is stored whole. *)
Theorem C8_upload_size_limit (settings : BaseConfig) (env : Env)
    (upload_file : UploadFile) (owner_id : UUID) (dsk : gmap string (list byte)) :
  0 <= MAX_UPLOAD_SIZE settings →
  let total := Z.of_nat (length (file upload_file)) in
  let file_path := upload_path settings env upload_file owner_id in
  (total > MAX_UPLOAD_SIZE settings →
     save_upload_file settings env upload_file owner_id dsk
     = (Raised (HTTPException HTTP_413_REQUEST_ENTITY_TOO_LARGE),
        delete file_path dsk)
     ∧ delete file_path dsk !! file_path = None)
  ∧ (total <= MAX_UPLOAD_SIZE settings →
       save_upload_file settings env upload_file owner_id dsk
       = (Returned (file_path, total, hashlib.sha256_hexdigest (file upload_file)),
          <[file_path := file upload_file]> dsk)).
Proof.
  intros Hmax total file_path. split.
  - intros Hbig. split; [|apply lookup_delete_eq].
    apply save_upload_file_too_large; [|done].
    intros Hnil. unfold total in Hbig. rewrite Hnil in Hbig. simpl in Hbig. lia.
  - intros Hfit. by apply save_upload_file_fits.
Qed.


Lemma C8_upload_size_limit_witness :
  save_upload_file tiny_settings (env_at 1 "f1" "d1")
    (notes_txt "Hello world!") "u1" ∅
  = (Raised (HTTPException HTTP_413_REQUEST_ENTITY_TOO_LARGE),
     delete (upload_path tiny_settings (env_at 1 "f1" "d1")
               (notes_txt "Hello world!") "u1") ∅)
  ∧ save_upload_file tiny_settings (env_at 1 "f1" "d1") (notes_txt "Hello") "u1" ∅
    = (Returned (upload_path tiny_settings (env_at 1 "f1" "d1")
                   (notes_txt "Hello") "u1",
                 5, hashlib.sha256_hexdigest (file (notes_txt "Hello"))),
       <[upload_path tiny_settings (env_at 1 "f1" "d1") (notes_txt "Hello") "u1"
           := file (notes_txt "Hello")]> ∅).
Proof.
  split.
  - apply (C8_upload_size_limit tiny_settings (env_at 1 "f1" "d1")
             (notes_txt "Hello world!") "u1" ∅);
      [vm_compute; discriminate|vm_compute; reflexivity].
  - apply (C8_upload_size_limit tiny_settings (env_at 1 "f1" "d1")
             (notes_txt "Hello") "u1" ∅);
      [vm_compute; discriminate|vm_compute; discriminate].
Defined.

(** ** Uploading a document *)

Lemma validate_file_Returned (upload_file : UploadFile) u :
  validate_file upload_file = Returned u →
  ∃ fname, filename upload_file = Some fname ∧ fname ≠ EmptyString
           ∧ Py.lower (Path.suffix fname) ∈ ALLOWED_EXTENSIONS.
Proof.
  unfold validate_file. destruct (filename upload_file) as [[|c fname]|]; try done.
  case_bool_decide as Hext; [done|]. intros _.
  exists (String c fname). split_and!; [done|done|].
  by destruct (decide (Py.lower (Path.suffix (String c fname)) ∈ ALLOWED_EXTENSIONS)).
Qed.

Lemma new_document_Returned pypdf env file title description
    is_public current_user mime_type doc_type file_path0 file_size0 sum
    (dsk : gmap string (list byte)) doc :
  new_document pypdf env file title description is_public current_user
    mime_type doc_type file_path0 file_size0 sum dsk = Returned doc →
  file_path doc = file_path0 ∧ file_size doc = file_size0
  ∧ checksum doc = Some sum ∧ owner_id doc = current_user
  ∧ document_type doc = doc_type ∧ status doc = DRAFT.
Proof.
  unfold new_document. intros H.
  destruct (if bool_decide (doc_type = PDF) then _ else _) as [sub|e];
    simpl in H; [|done].
  by simplify_eq.
Qed.

(** C7. When an upload is answered with a response, the document is stored
    under the identifier of the response, the file at its path holds
    exactly the bytes that were uploaded, and its checksum is the SHA-256
    digest of these bytes; the extension of the file name is an allowed
    one. *)
Theorem C7_stored_checksum (settings : BaseConfig)
    (pypdf : option (list byte -> outcome PdfReader)) (env : Env)
    (upload : UploadFile) (title description : option string)
    (is_public : bool) (current_user : UUID) (w w' : World)
    (resp : DocumentUploadResponse) :
  upload_document settings pypdf env upload title description is_public
    current_user w = (Returned resp, w') →
  ∃ doc written,
    document (db w') !! up_id resp = Some doc
    ∧ disk w' !! file_path doc = Some written
    ∧ written = file upload
    ∧ checksum doc = Some (hashlib.sha256_hexdigest written)
    ∧ file_size doc = Z.of_nat (length written)
    ∧ ∃ fname, filename upload = Some fname
               ∧ Py.lower (Path.suffix fname) ∈ ALLOWED_EXTENSIONS.
Proof.
  unfold upload_document. intros H.
  destruct (validate_file upload) as [u|e] eqn:Hv; [|by simplify_eq].
  apply validate_file_Returned in Hv as (fname & Hname & _ & Hext).
  destruct (save_upload_file settings env upload current_user (disk w))
    as [[[[p sz] sum]|e] dsk'] eqn:Hsave; [|by simplify_eq].
  apply save_upload_file_Returned in Hsave as (Hp & -> & -> & ->).
  destruct (new_document _ _ _ _ _ _ _ _ _ _ _ _ _) as [doc|e] eqn:Hdoc;
    simpl in H; [|by simplify_eq].
  apply new_document_Returned in Hdoc as (Hpath & Hsize & Hsum & _).
  unfold commit_document in H.
  destruct (commit_raises env || _); simpl in H; simplify_eq.
  exists doc, (file upload). simpl.
  rewrite Hpath, !lookup_insert_eq. split_and!; try done. by exists fname.
Qed.

Lemma C7_stored_checksum_witness :
  ∃ doc,
    document (db (upload_document default_settings None (env_at 1 "f1" "d1")
                    (notes_txt "Hello, World!") None None false "u1"
                    empty_world).2) !! "d1" = Some doc
    ∧ checksum doc
      = Some "dffd6021bb2bd5b0af676290809ec3a53191dd81c7f70a4b28688a362182986f"
    ∧ disk (upload_document default_settings None (env_at 1 "f1" "d1")
              (notes_txt "Hello, World!") None None false "u1"
              empty_world).2 !! file_path doc
      = Some (list_byte_of_string "Hello, World!").
Proof.
  destruct (upload_document default_settings None (env_at 1 "f1" "d1")
              (notes_txt "Hello, World!") None None false "u1" empty_world)
    as [[resp|e] w'] eqn:E; [|by vm_compute in E].
  destruct (C7_stored_checksum _ _ _ _ _ _ _ _ _ _ _ E)
    as (doc & written & Hdoc & Hdisk & -> & Hsum & _).
  assert (Hid : up_id resp = "d1") by (vm_compute in E; by simplify_eq).
  rewrite Hid in Hdoc. exists doc. simpl. split_and!; [done| |done].
  rewrite Hsum. vm_compute. reflexivity.
Defined.

(** ** Metadata extraction *)

Lemma text_metadata_encoding (content : list N) (enc : string) :
  text_metadata_of content enc !! "encoding" = Some (PStr enc).
Proof.
  unfold text_metadata_of.
  rewrite !lookup_insert_ne by done. apply lookup_insert_eq.
Qed.

(** The text extractor on a file that exists: UTF-8 when the content
    decodes, Latin-1 otherwise. *)
Lemma extract_text_metadata_file (dsk : gmap string (list byte))
    (file_path : string) (content : list byte) :
  dsk !! file_path = Some content →
  extract_text_metadata dsk file_path
  = Returned
      match Codec.utf8 (Byte.to_N <$> content) with
      | Some t => text_metadata_of (Codec.universal_newlines t) "utf-8"
      | None =>
          text_metadata_of
            (Codec.universal_newlines (Codec.latin1 (Byte.to_N <$> content)))
            "latin-1"
      end.
Proof.
  intros Hfile. unfold extract_text_metadata, read_text. rewrite Hfile.
  destruct (Codec.utf8 _) as [t|]; reflexivity.
Qed.

Lemma extract_text_metadata_missing (dsk : gmap string (list byte))
    (file_path : string) :
  dsk !! file_path = None → extract_text_metadata dsk file_path = Returned ∅.
Proof.
  intros Hfile. unfold extract_text_metadata, read_text. by rewrite Hfile.
Qed.

(** C9. Neither extractor raises. On a file with some content the text
    extractor answers with the counts of the decoded content, which depend
    on the bytes alone, and with the encoding utf-8 or latin-1, binary being
    the only other value the code can write. The PDF extractor answers with
    the default metadata when the library is missing and whenever opening or
    reading the document raises. *)
Theorem C9_extractors_never_raise
    (pypdf : option (list byte -> outcome PdfReader))
    (dsk : gmap string (list byte)) (file_path : string) :
  (∃ d, extract_text_metadata dsk file_path = Returned d
        ∧ ∀ content, dsk !! file_path = Some content →
            (d !! "encoding" = Some (PStr "utf-8")
             ∨ d !! "encoding" = Some (PStr "latin-1")
             ∨ d !! "encoding" = Some (PStr "binary"))
            ∧ (∃ t enc, d = text_metadata_of t enc)
            ∧ ∀ (dsk2 : gmap string (list byte)) path2,
                dsk2 !! path2 = Some content →
                extract_text_metadata dsk2 path2 = Returned d)
  ∧ (∃ d, extract_pdf_metadata pypdf dsk file_path = Returned d
          ∧ (pypdf = None → d = pdf_default_metadata)
          ∧ ∀ PdfReader_, pypdf = Some PdfReader_ →
              match open_and_read_pdf PdfReader_ dsk file_path with
              | Raised _ => d = pdf_default_metadata
              | Returned m => d = m
              end).
Proof.
  split.
  - destruct (dsk !! file_path) as [content|] eqn:Hfile.
    + eexists. split; [by apply extract_text_metadata_file|].
      intros ? [= <-]. split_and!.
      * destruct (Codec.utf8 _); rewrite text_metadata_encoding; auto.
      * destruct (Codec.utf8 _); eauto.
      * intros dsk2 path2 H2. by apply extract_text_metadata_file.
    + exists ∅. split; [by apply extract_text_metadata_missing|]. done.
  - unfold extract_pdf_metadata. destruct pypdf as [PdfReader_|].
    + destruct (open_and_read_pdf PdfReader_ dsk file_path) as [m|e] eqn:Hr.
      * exists m. split_and!; [done|done|]. intros ? [= <-]. by rewrite Hr.
      * exists pdf_default_metadata. split_and!; [done|done|].
        intros ? [= <-]. by rewrite Hr.
    + exists pdf_default_metadata. split_and!; [done|done|done].
Qed.


(** ** Listing documents *)

Lemma length_filter_map_to_list {A} (P : string * A → Prop)
    `{∀ x, Decision (P x)} (m : gmap string A) :
  length (filter P (map_to_list m)) = size (filter P m).
Proof.
  rewrite map_filter_alt.
  rewrite <- length_map_to_list.
  apply Permutation_length. symmetry. apply map_to_list_to_map.
  eapply sublist_NoDup; [apply (NoDup_fst_map_to_list m)|].
  apply fmap_sublist, sublist_filter.
Qed.

Lemma where_opt_filters user status_filter type_filter
    (rows : list (UUID * Document)) :
  where_opt document_type type_filter
    (where_opt status status_filter
       (filter (λ row, owner_id row.2 = user) rows))
  = filter (selected user status_filter type_filter) rows.
Proof.
  unfold where_opt, selected.
  destruct status_filter as [s|], type_filter as [t|];
    rewrite ?list_filter_filter; apply list_filter_iff; intros row; simpl; tauto.
Qed.

(** C10. A list request with a valid page answers with rows of the
    requester that pass the status and type filters, and with a total that
    counts all documents of the requester, filters ignored. So the total is
    larger than the number of documents the query selects as soon as a
    filter excludes a document of the requester. *)
Theorem C10_list_total_ignores_filters (page page_size : Z)
    (status_filter : option DocumentStatus) (type_filter : option DocumentType)
    (d : Database) (current_user : UUID) :
  1 <= page → 1 <= page_size <= 100 →
  ∃ resp,
    list_documents page page_size status_filter type_filter d current_user
    = Returned resp
    ∧ (∀ r, r ∈ documents resp →
         ∃ doc_id doc, document d !! doc_id = Some doc
           ∧ r = detail_response (doc_id, doc)
           ∧ owner_id doc = current_user
           ∧ (∀ s, status_filter = Some s → status doc = s)
           ∧ (∀ t, type_filter = Some t → document_type doc = t))
    ∧ total resp
      = Z.of_nat (size (filter (λ row, owner_id row.2 = current_user)
                          (document d)))
    ∧ (length (documents resp)
       <= size (filter (selected current_user status_filter type_filter)
                  (document d)))%nat
    ∧ ((∃ doc_id doc, document d !! doc_id = Some doc
          ∧ owner_id doc = current_user
          ∧ ¬ selected current_user status_filter type_filter (doc_id, doc)) →
       Z.of_nat (size (filter (selected current_user status_filter type_filter)
                         (document d)))
       < total resp).
Proof.
  intros Hpage [Hsize1 Hsize2]. unfold list_documents.
  rewrite (proj2 (Z.ltb_ge page 1)), (proj2 (Z.ltb_ge page_size 1)),
    (proj2 (Z.ltb_ge 100 page_size)) by lia.
  simpl orb. cbv iota. eexists. split; [reflexivity|]. simpl.
  rewrite where_opt_filters. unfold all_documents.
  split_and!.
  - intros r (row & -> & Hrow)%list_elem_of_fmap.
    apply subseteq_take, subseteq_drop in Hrow.
    rewrite merge_sort_Permutation in Hrow.
    apply list_elem_of_filter in Hrow as [(Hown & Hs & Ht) Hrow].
    destruct row as [doc_id doc]. apply elem_of_map_to_list in Hrow.
    exists doc_id, doc. split_and!; try done.
    + intros s ->. exact Hs.
    + intros t ->. exact Ht.
  - by rewrite length_filter_map_to_list.
  - rewrite length_fmap, length_take, length_drop.
    rewrite (Permutation_length (merge_sort_Permutation _ _)).
    rewrite length_filter_map_to_list. lia.
  - intros (doc_id & doc & Hdoc & Hown & Hnot).
    rewrite <- !length_filter_map_to_list. apply inj_lt.
    apply elem_of_map_to_list in Hdoc.
    assert (Hsub : filter (selected current_user status_filter type_filter)
                     (map_to_list (document d))
                   = filter (selected current_user status_filter type_filter)
                       (filter (λ row, owner_id row.2 = current_user)
                          (map_to_list (document d)))).
    { rewrite list_filter_filter. apply list_filter_iff.
      intros row. unfold selected. tauto. }
    rewrite Hsub. eapply length_filter_lt; [|exact Hnot].
    apply list_elem_of_filter. by split.
Qed.


Lemma C10_list_total_ignores_filters_witness :
  ∃ resp,
    list_documents 1 20 (Some PUBLISHED) None two_docs "u1" = Returned resp
    ∧ total resp = 2
    ∧ r_id <$> documents resp = ["d2"].
Proof.
  destruct (C10_list_total_ignores_filters 1 20 (Some PUBLISHED) None
              two_docs "u1") as (resp & Hret & _ & Htotal & _); [lia|lia|].
  exists resp. split_and!; [done| |].
  - rewrite Htotal. vm_compute. reflexivity.
  - vm_compute in Hret. injection Hret as <-. reflexivity.
Defined.

(** ** Versions *)

Lemma foldl_max_spec (l : list Z) (x : Z) :
  (foldl Z.max x l = x ∨ foldl Z.max x l ∈ l)
  ∧ x <= foldl Z.max x l
  ∧ ∀ y, y ∈ l → y <= foldl Z.max x l.
Proof.
  revert x. induction l as [|a l IH]; intros x; simpl.
  - split_and!; [by left|lia|]. by intros y ?%elem_of_nil.
  - destruct (IH (Z.max x a)) as (Hin & Hle & Hall). split_and!.
    + destruct Hin as [Hin|Hin].
      * rewrite Hin. destruct (Z.max_spec x a) as [[_ ->]|[_ ->]];
          [right; left|by left].
      * right. by right.
    + lia.
    + intros y [->|Hy]%elem_of_cons; [lia|by apply Hall].
Qed.

(** [max(l, default=d)] is the default on the empty list and otherwise the
    greatest element. *)
Lemma py_max_spec (l : list Z) (d : Z) :
  (l = [] → py_max l d = d)
  ∧ (l ≠ [] → py_max l d ∈ l ∧ ∀ y, y ∈ l → y <= py_max l d).
Proof.
  split; [by intros ->|]. destruct l as [|x l]; [done|]. intros _. simpl.
  destruct (foldl_max_spec l x) as (Hin & Hle & Hall). split.
  - destruct Hin as [->|Hin]; [left|by right].
  - intros y [->|Hy]%elem_of_cons; [done|by apply Hall].
Qed.

Lemma py_max_Permutation (l1 l2 : list Z) (d : Z) :
  l1 ≡ₚ l2 → py_max l1 d = py_max l2 d.
Proof.
  intros Hp.
  destruct (decide (l1 = [])) as [->|Hne1].
  { by apply Permutation_nil_l in Hp as ->. }
  assert (Hne2 : l2 ≠ []).
  { intros ->. by apply Permutation_nil_r in Hp. }
  destruct (py_max_spec l1 d) as [_ H1]. destruct (H1 Hne1) as [Hin1 Hmax1].
  destruct (py_max_spec l2 d) as [_ H2]. destruct (H2 Hne2) as [Hin2 Hmax2].
  apply Z.le_antisymm.
  - apply Hmax2. by rewrite <- Hp.
  - apply Hmax1. by rewrite Hp.
Qed.

(** The relationship [document.versions] holds the rows of the document;
    its order does not change the next number. *)
Lemma next_version_of_versions (d : Database) (document_id : UUID) :
  next_version_of (versions d document_id)
  = py_max (version_number <$> version_rows d document_id) 0 + 1.
Proof.
  unfold next_version_of, versions, version_rows. f_equal.
  apply py_max_Permutation, fmap_Permutation, merge_sort_Permutation.
Qed.

Lemma update_subtype_Returned pypdf (dsk : gmap string (list byte))
    (file_path0 : string) (s s' : Session) :
  update_subtype pypdf dsk file_path0 s = Returned s' →
  new s' = new s
  ∧ file_path (obj s') = file_path (obj s)
  ∧ file_size (obj s') = file_size (obj s)
  ∧ checksum (obj s') = checksum (obj s)
  ∧ file_name (obj s') = file_name (obj s)
  ∧ mime_type (obj s') = mime_type (obj s)
  ∧ owner_id (obj s') = owner_id (obj s).
Proof.
  unfold update_subtype. intros H.
  destruct (subtype (obj s)) as [|c|c].
  - by simplify_eq.
  - destruct (extract_text_metadata dsk file_path0); simpl in H; by simplify_eq.
  - destruct (extract_pdf_metadata pypdf dsk file_path0); simpl in H;
      by simplify_eq.
Qed.

(** What a version upload that is answered with a response has done. *)
Lemma upload_new_version_Returned settings pypdf env document_id upload
    change_summary current_user (w w' : World) resp :
  upload_new_version settings pypdf env document_id upload change_summary
    current_user w = (Returned resp, w') →
  ∃ doc s3,
    document (db w) !! document_id = Some doc
    ∧ owner_id doc = current_user
    ∧ (let fp := upload_path settings env upload current_user in
       let s1 := queue_snapshot env document_id doc
                   (versions (db w) document_id) change_summary current_user in
       let s2 := overwrite_file_fields upload fp
                   (Z.of_nat (length (file upload)))
                   (hashlib.sha256_hexdigest (file upload)) s1 in
       disk w' = <[fp := file upload]> (disk w)
       ∧ update_subtype pypdf (disk w') fp s2 = Returned s3
       ∧ db w' = {| document :=
                      <[document_id := touched env (obj s3)]> (document (db w));
                    document_version := document_version (db w) ++ new s1 |}
       ∧ resp = upload_response document_id (touched env (obj s3))).
Proof.
  unfold upload_new_version. intros H.
  destruct (document (db w) !! document_id) as [doc|] eqn:Hdoc;
    [|by simplify_eq].
  case_bool_decide as Hown; [by simplify_eq|].
  destruct (validate_file upload) as [u|e]; [|by simplify_eq].
  destruct (save_upload_file settings env upload current_user (disk w))
    as [[[[p sz] sum]|e] dsk'] eqn:Hsave; [|by simplify_eq].
  apply save_upload_file_Returned in Hsave as (-> & -> & -> & ->).
  destruct (update_subtype _ _ _ _) as [s3|e] eqn:Hsub; simpl in H;
    [|by simplify_eq].
  pose proof (update_subtype_Returned _ _ _ _ _ Hsub) as (Hnew & _).
  unfold commit_session in H.
  destruct (commit_raises env || _); simpl in H; [by simplify_eq|].
  injection H as <- <-. exists doc, s3. simpl.
  split_and!; try done. by rewrite Hnew.
Qed.

Lemma version_rows_after_upload settings pypdf env document_id upload
    change_summary current_user (w w' : World) resp :
  upload_new_version settings pypdf env document_id upload change_summary
    current_user w = (Returned resp, w') →
  ∃ doc, document (db w) !! document_id = Some doc
    ∧ document_version (db w')
      = document_version (db w)
        ++ [version_record env document_id doc
              (py_max (version_number <$> version_rows (db w) document_id) 0 + 1)
              change_summary current_user]
    ∧ version_rows (db w') document_id
      = version_rows (db w) document_id
        ++ [version_record env document_id doc
              (py_max (version_number <$> version_rows (db w) document_id) 0 + 1)
              change_summary current_user].
Proof.
  intros (doc & s3 & Hdoc & _ & _ & _ & Hdb & _)%upload_new_version_Returned.
  exists doc. split; [done|]. rewrite Hdb. unfold version_rows. simpl.
  unfold queue_snapshot. simpl. rewrite next_version_of_versions.
  split; [done|]. rewrite filter_app. f_equal.
  by rewrite filter_cons_True.
Qed.

Lemma py_max_all_ones (k : nat) : py_max (replicate (S k) 1) 0 = 1.
Proof.
  destruct (py_max_spec (replicate (S k) 1) 0) as [_ H].
  destruct (H ltac:(done)) as [Hin _].
  by apply elem_of_replicate in Hin as [? _].
Qed.

(** C3. A version upload that is answered adds one row for the document.
    With [next_version] the greatest version number among the rows of the
    document (0 when there is none) plus one, the row has the number
    [next_version - 1], or 1 when that would be less than 1: a first row has
    the number 1. *)
Theorem C3_snapshot_version_number (settings : BaseConfig)
    (pypdf : option (list byte -> outcome PdfReader)) (env : Env)
    (document_id : UUID) (upload : UploadFile) (change_summary : option string)
    (current_user : UUID) (w w' : World) (resp : DocumentUploadResponse) :
  upload_new_version settings pypdf env document_id upload change_summary
    current_user w = (Returned resp, w') →
  let existing := version_number <$> version_rows (db w) document_id in
  let next_version := py_max existing 0 + 1 in
  (existing = [] → next_version = 1)
  ∧ (existing ≠ [] →
       next_version - 1 ∈ existing ∧ ∀ n, n ∈ existing → n <= next_version - 1)
  ∧ ∃ v, document_version (db w') = document_version (db w) ++ [v]
       ∧ dv_document_id v = document_id
       ∧ version_number v = Z.max 1 (next_version - 1)
       ∧ (existing = [] → version_number v = 1).
Proof.
  intros H existing next_version.
  destruct (py_max_spec existing 0) as [Hnil Hmax].
  split; [intros He; unfold next_version; rewrite (Hnil He); lia|].
  split.
  { intros He. destruct (Hmax He) as [Hin Hall]. unfold next_version.
    replace (py_max existing 0 + 1 - 1) with (py_max existing 0) by lia.
    done. }
  apply version_rows_after_upload in H as (doc & _ & Hrows & _).
  eexists. split; [exact Hrows|]. simpl. fold existing. fold next_version.
  split; [done|].
  split.
  - destruct (Z.gtb_spec next_version 1); lia.
  - intros He. unfold next_version. rewrite (Hnil He). reflexivity.
Qed.

(** C2. A version upload that is answered queues a row with the path, the
    size and the checksum the document had when it was loaded (the empty
    string when it had no checksum), and at that point the document is
    unchanged. After the commit this row is the newest row of the table
    and of the document, and the document carries the path, the size and
    the SHA-256 digest of the new file; a file stored under another path
    is left as it was. *)
Theorem C2_snapshot_before_overwrite (settings : BaseConfig)
    (pypdf : option (list byte -> outcome PdfReader)) (env : Env)
    (document_id : UUID) (upload : UploadFile) (change_summary : option string)
    (current_user : UUID) (w w' : World) (resp : DocumentUploadResponse)
    (doc : Document) :
  upload_new_version settings pypdf env document_id upload change_summary
    current_user w = (Returned resp, w') →
  document (db w) !! document_id = Some doc →
  let s1 := queue_snapshot env document_id doc (versions (db w) document_id)
              change_summary current_user in
  obj s1 = doc
  ∧ ∃ v, new s1 = [v]
      ∧ dv_document_id v = document_id
      ∧ dv_file_path v = file_path doc
      ∧ dv_file_size v = file_size doc
      ∧ (∀ c, checksum doc = Some c → dv_checksum v = c)
      ∧ (checksum doc = None → dv_checksum v = EmptyString)
      ∧ last (document_version (db w')) = Some v
      ∧ last (version_rows (db w') document_id) = Some v
      ∧ ∃ doc', document (db w') !! document_id = Some doc'
          ∧ file_path doc' = upload_path settings env upload current_user
          ∧ file_size doc' = Z.of_nat (length (file upload))
          ∧ checksum doc' = Some (hashlib.sha256_hexdigest (file upload))
          ∧ disk w' !! file_path doc' = Some (file upload)
          ∧ (file_path doc ≠ file_path doc' →
               disk w' !! file_path doc = disk w !! file_path doc).
Proof.
  intros H Hdoc s1. split; [done|].
  pose proof (version_rows_after_upload _ _ _ _ _ _ _ _ _ _ H)
    as (doc0 & Hdoc0 & Hall & Hrows).
  rewrite Hdoc in Hdoc0. injection Hdoc0 as <-.
  apply upload_new_version_Returned in H
    as (doc0 & s3 & Hdoc0 & _ & Hdisk & Hsub & Hdb & _).
  rewrite Hdoc in Hdoc0. injection Hdoc0 as <-.
  apply update_subtype_Returned in Hsub as (_ & Hp & Hs & Hc & _).
  eexists. split; [reflexivity|]. simpl.
  rewrite Hall, Hrows, !last_snoc, next_version_of_versions.
  split_and!; try done.
  - intros c ->. simpl. by destruct c.
  - by intros ->.
  - exists (touched env (obj s3)). rewrite Hdb. simpl.
    rewrite lookup_insert_eq, Hp, Hs, Hc, Hdisk. simpl.
    rewrite lookup_insert_eq. split_and!; try done.
    intros Hne. by rewrite lookup_insert_ne.
Qed.

(** C1 (what the code does). The version numbers do not advance: when a
    document starts without version rows, every row that its version
    uploads add has the number 1, so that after [n] uploads the numbers of
    its rows are [n] times 1, neither 1 to [n - 1] nor increasing. *)
Theorem C1_version_numbers_do_not_advance (settings : BaseConfig)
    (pypdf : option (list byte -> outcome PdfReader))
    (document_id : UUID) (w0 w : World) (n : nat) :
  uploads settings pypdf document_id w0 n w →
  version_rows (db w0) document_id = [] →
  version_number <$> version_rows (db w) document_id = replicate n 1.
Proof.
  intros Hrun Hnone. induction Hrun as [w0|w0 n w1 env upload cs user resp w2 Hrun IH Hup].
  - by rewrite Hnone.
  - specialize (IH Hnone).
    apply version_rows_after_upload in Hup as (doc & _ & _ & Hrows).
    rewrite Hrows, fmap_app, IH, replicate_S_end. f_equal.
    cbn [fmap list_fmap version_number version_record]. f_equal.
    destruct n as [|k].
    + reflexivity.
    + by rewrite py_max_all_ones.
Qed.


Lemma version_upload_2 :
  version_upload 2 "f2" "v1" "Two" world_1 = (Returned (version_response 3), world_2).
Proof. vm_compute. reflexivity. Qed.

Lemma version_upload_3 :
  version_upload 3 "f3" "v2" "Three" world_2 = (Returned (version_response 5), world_3).
Proof. vm_compute. reflexivity. Qed.

Lemma version_upload_4 :
  version_upload 4 "f4" "v3" "Four" world_3 = (Returned (version_response 4), world_4).
Proof. vm_compute. reflexivity. Qed.

Lemma C1_version_numbers_do_not_advance_witness :
  uploads default_settings None "d1" world_1 3 world_4
  ∧ version_rows (db world_1) "d1" = []
  ∧ version_number <$> version_rows (db world_4) "d1" = [1; 1; 1].
Proof.
  assert (Hrun : uploads default_settings None "d1" world_1 3 world_4).
  { eapply uploads_more; [|exact version_upload_4].
    eapply uploads_more; [|exact version_upload_3].
    eapply uploads_more; [|exact version_upload_2].
    apply uploads_none. }
  assert (Hnone : version_rows (db world_1) "d1" = [])
    by (vm_compute; reflexivity).
  split_and!; [done|done|].
  exact (C1_version_numbers_do_not_advance _ _ _ _ _ _ Hrun Hnone).
Defined.

Lemma C3_snapshot_version_number_witness :
  ∃ v, document_version (db world_3) = document_version (db world_2) ++ [v]
     ∧ version_number v = 1.
Proof.
  destruct (C3_snapshot_version_number _ _ _ _ _ _ _ _ _ _ version_upload_3)
    as (_ & _ & v & Hrows & _ & Hnum & _).
  exists v. split; [exact Hrows|]. rewrite Hnum. vm_compute. reflexivity.
Defined.

Lemma C2_snapshot_before_overwrite_witness :
  ∃ v doc, document (db world_1) !! "d1" = Some doc
     ∧ last (version_rows (db world_2) "d1") = Some v
     ∧ dv_file_path v = file_path doc
     ∧ dv_file_size v = 5
     ∧ dv_checksum v
       = "185f8db32271fe25f561a6fc938b2e264306ec304eda518007d1764826381969".
Proof.
  destruct (document (db world_1) !! "d1") as [doc|] eqn:Hdoc;
    [|by vm_compute in Hdoc].
  destruct (C2_snapshot_before_overwrite _ _ _ _ _ _ _ _ _ _ _
              version_upload_2 Hdoc)
    as (_ & v & _ & _ & Hpath & Hsize & Hsum & _ & _ & Hlast & _).
  exists v, doc. split_and!; [done|done|done| |].
  - rewrite Hsize. vm_compute in Hdoc. by injection Hdoc as <-.
  - apply Hsum. vm_compute in Hdoc. by injection Hdoc as <-.
Defined.

(** * Further properties *)

(** ** Saving and hashing *)

(** The two ways [save_upload_file] ends. *)
Lemma save_upload_file_cases (settings : BaseConfig) (env : Env)
    (upload : UploadFile) (owner : UUID) (dsk : gmap string (list byte)) :
  let p := upload_path settings env upload owner in
  save_upload_file settings env upload owner dsk
  = (Returned (p, Z.of_nat (length (file upload)),
               hashlib.sha256_hexdigest (file upload)),
     <[p := file upload]> dsk)
  ∨ save_upload_file settings env upload owner dsk
    = (Raised (HTTPException HTTP_413_REQUEST_ENTITY_TOO_LARGE), delete p dsk).
Proof.
  intros p. destruct (decide (file upload = [])) as [Hnil|Hne].
  - left. unfold save_upload_file. fold p. rewrite Hnil.
    simp write_chunks. cbv beta iota.
    rewrite sha256_hexdigest_nil. reflexivity.
  - destruct (Z_le_gt_dec (Z.of_nat (length (file upload)))
                (MAX_UPLOAD_SIZE settings)) as [Hle|Hgt].
    + left. by apply save_upload_file_fits.
    + right. by apply save_upload_file_too_large.
Qed.

(** X1. Saving an upload has two outcomes only: the whole content is stored
    at the path of the upload, or the request is refused with 413 and
    nothing is left at that path. No other file is touched either way. *)
Theorem save_upload_file_all_or_nothing (settings : BaseConfig) (env : Env)
    (upload : UploadFile) (owner : UUID) (dsk : gmap string (list byte)) :
  let p := upload_path settings env upload owner in
  (save_upload_file settings env upload owner dsk
   = (Returned (p, Z.of_nat (length (file upload)),
                hashlib.sha256_hexdigest (file upload)),
      <[p := file upload]> dsk)
   ∨ save_upload_file settings env upload owner dsk
     = (Raised (HTTPException HTTP_413_REQUEST_ENTITY_TOO_LARGE), delete p dsk))
  ∧ ∀ q, q ≠ p →
      (save_upload_file settings env upload owner dsk).2 !! q = dsk !! q.
Proof.
  intros p.
  pose proof (save_upload_file_cases settings env upload owner dsk) as Hcases.
  fold p in Hcases.
  split; [exact Hcases|]. intros q Hq.
  destruct Hcases as [-> | ->]; simpl.
  - by rewrite lookup_insert_ne.
  - by rewrite lookup_delete_ne.
Qed.

Lemma hash_chunks_update (stream : list byte) :
  ∀ h, hash_chunks stream h = hashlib.update h stream.
Proof.
  induction stream as [stream IH] using (induction_ltof1 _ (@length byte)).
  unfold ltof in IH. intros h. destruct stream as [|b rest].
  - simp hash_chunks. reflexivity.
  - simp hash_chunks. rewrite IH.
    + by rewrite update_app, take_drop.
    + rewrite length_drop.
      assert (0 < CHUNK)%nat by (apply Nat.ltb_lt; vm_compute; reflexivity).
      simpl length. lia.
Qed.

(** X2. Reading a file in chunks of 8192 bytes gives the digest of the whole
    content: [compute_file_checksum] is the SHA-256 hexdigest of the file,
    and it raises when the file is missing. *)
Theorem compute_file_checksum_spec (dsk : gmap string (list byte))
    (file_path : string) :
  compute_file_checksum dsk file_path
  = match dsk !! file_path with
    | Some content => Returned (hashlib.sha256_hexdigest content)
    | None => Raised FileNotFoundError
    end.
Proof.
  unfold compute_file_checksum, hashlib.sha256_hexdigest.
  destruct (dsk !! file_path) as [content|]; [|done].
  generalize hashlib.new. intros h. by rewrite hash_chunks_update.
Qed.

(** ** Uploading *)

Lemma extract_text_metadata_returns (dsk : gmap string (list byte))
    (file_path : string) :
  ∃ m, extract_text_metadata dsk file_path = Returned m.
Proof.
  destruct (dsk !! file_path) as [content|] eqn:Hfile.
  - eexists. by apply extract_text_metadata_file.
  - eexists. by apply extract_text_metadata_missing.
Qed.

Lemma extract_pdf_metadata_returns pypdf (dsk : gmap string (list byte))
    (file_path : string) :
  ∃ m, extract_pdf_metadata pypdf dsk file_path = Returned m.
Proof.
  unfold extract_pdf_metadata. destruct pypdf as [PdfReader_|]; [|eauto].
  destruct (open_and_read_pdf PdfReader_ dsk file_path); simpl; eauto.
Qed.

Lemma new_document_cases pypdf env upload title0 description0 is_public0
    current_user mime doc_type fp sz sum (dsk : gmap string (list byte)) :
  ∃ sub,
    new_document pypdf env upload title0 description0 is_public0 current_user
      mime doc_type fp sz sum dsk
    = Returned
        {| title := str_or title0
                      (Path.stem (str_or (filename upload) "Untitled"));
           description := description0; document_type := doc_type;
           status := DRAFT; file_path := fp;
           file_name := default EmptyString (filename upload);
           file_size := sz; mime_type := mime; checksum := Some sum;
           is_public := is_public0; download_count := 0;
           created_at := utcnow env; updated_at := utcnow env;
           owner_id := current_user; subtype := sub |}
    ∧ (doc_type = PDF → ∃ c, sub = PDFDocument c)
    ∧ (doc_type ≠ PDF → ∃ c, sub = TextDocument c).
Proof.
  unfold new_document. case_bool_decide as Hpdf.
  - destruct (extract_pdf_metadata_returns pypdf dsk fp) as (m & ->).
    simpl. eexists. split; [reflexivity|]. split; [eauto|done].
  - destruct (extract_text_metadata_returns dsk fp) as (m & ->).
    simpl. eexists. split; [reflexivity|]. split; [done|eauto].
Qed.

(** X3. An upload goes through whenever the file passes validation, its size
    is within the limit, the database accepts the commit and the new
    identifier is free. The stored document is a draft owned by the
    uploader with a download count of 0, typed by MIME type and extension,
    of the PDF class exactly when that type is PDF and of the text class
    otherwise. *)
Theorem upload_document_succeeds (settings : BaseConfig)
    (pypdf : option (list byte -> outcome PdfReader)) (env : Env)
    (upload : UploadFile) (title0 description0 : option string)
    (is_public0 : bool) (current_user : UUID) (w : World) :
  validate_file upload = Returned () →
  Z.of_nat (length (file upload)) <= MAX_UPLOAD_SIZE settings →
  commit_raises env = false →
  document (db w) !! uuid4_row env = None →
  ∃ doc,
    upload_document settings pypdf env upload title0 description0 is_public0
      current_user w
    = (Returned (upload_response (uuid4_row env) doc),
       {| disk := <[upload_path settings env upload current_user := file upload]>
                    (disk w);
          db := {| document := <[uuid4_row env := doc]> (document (db w));
                   document_version := document_version (db w) |} |})
    ∧ status doc = DRAFT ∧ download_count doc = 0
    ∧ owner_id doc = current_user ∧ is_public doc = is_public0
    ∧ document_type doc
      = get_document_type_from_mime
          (str_or (content_type upload) "application/octet-stream")
          (str_or (filename upload) EmptyString)
    ∧ (document_type doc = PDF → ∃ c, subtype doc = PDFDocument c)
    ∧ (document_type doc ≠ PDF → ∃ c, subtype doc = TextDocument c).
Proof.
  intros Hvalid Hfit Hcommit Hfresh. unfold upload_document.
  rewrite Hvalid, save_upload_file_fits by done.
  edestruct new_document_cases as (sub & -> & Hpdf & Htext).
  simpl. unfold commit_document. rewrite Hcommit, Hfresh.
  rewrite bool_decide_eq_false_2 by (by intros [? ?]). simpl.
  eexists. split; [reflexivity|]. simpl. split_and!; done.
Qed.

(** X4. A failed upload leaves no row and no file: validation errors change
    nothing; a file that is too large or a failed commit is answered with
    413 or 500, the database is as before and the disk is as before with
    nothing at the path of the upload. *)
Theorem upload_document_failure_cleans_up (settings : BaseConfig)
    (pypdf : option (list byte -> outcome PdfReader)) (env : Env)
    (upload : UploadFile) (title0 description0 : option string)
    (is_public0 : bool) (current_user : UUID) (w w' : World) (e : exn) :
  upload_document settings pypdf env upload title0 description0 is_public0
    current_user w = (Raised e, w') →
  (e = HTTPException HTTP_400_BAD_REQUEST ∧ w' = w)
  ∨ ((e = HTTPException HTTP_413_REQUEST_ENTITY_TOO_LARGE
      ∨ e = HTTPException HTTP_500_INTERNAL_SERVER_ERROR)
     ∧ db w' = db w
     ∧ disk w' = delete (upload_path settings env upload current_user) (disk w)).
Proof.
  unfold upload_document. intros H.
  destruct (validate_file upload) as [[]|e0] eqn:Hvalid.
  - right.
    destruct (save_upload_file_cases settings env upload current_user
                (disk w)) as [Hsave|Hsave]; rewrite Hsave in H.
    + edestruct new_document_cases as (sub & Hdoc & _). rewrite Hdoc in H.
      simpl in H. unfold commit_document in H.
      destruct (commit_raises env || _); simpl in H; [|discriminate].
      injection H as <- <-. simpl. split_and!; [by right|done|].
      unfold unlink_if_exists. by rewrite delete_insert_eq.
    + injection H as <- <-. simpl. split_and!; [by left|done|done].
  - left. unfold validate_file in Hvalid.
    destruct (filename upload) as [[|c f]|]; try case_bool_decide;
      simplify_eq; done.
Qed.

(** X5. After an upload the owner reads the document back with the name,
    the size and the SHA-256 checksum of what was sent; another user is
    refused unless the upload was public. *)
Theorem upload_then_get_document (settings : BaseConfig)
    (pypdf : option (list byte -> outcome PdfReader)) (env : Env)
    (upload : UploadFile) (title0 description0 : option string)
    (is_public0 : bool) (current_user : UUID) (w w' : World)
    (resp : DocumentUploadResponse) :
  upload_document settings pypdf env upload title0 description0 is_public0
    current_user w = (Returned resp, w') →
  (∃ r, get_document (up_id resp) (db w') current_user = Returned r
        ∧ r_id r = up_id resp
        ∧ Some (r_file_name r) = filename upload
        ∧ r_file_size r = Z.of_nat (length (file upload))
        ∧ r_checksum r = Some (hashlib.sha256_hexdigest (file upload))
        ∧ r_status r = "draft" ∧ r_download_count r = 0
        ∧ r_is_public r = is_public0
        ∧ ∀ other, is_public0 = true →
            get_document (up_id resp) (db w') other = Returned r)
  ∧ ∀ other, other ≠ current_user → is_public0 = false →
      get_document (up_id resp) (db w') other
      = Raised (HTTPException HTTP_403_FORBIDDEN).
Proof.
  unfold upload_document. intros H.
  destruct (validate_file upload) as [u|e0] eqn:Hvalid; [|by simplify_eq].
  apply validate_file_Returned in Hvalid as (fname & Hname & _).
  destruct (save_upload_file_cases settings env upload current_user
              (disk w)) as [Hsave|Hsave]; rewrite Hsave in H;
    [|by simplify_eq].
  edestruct new_document_cases as (sub & Hdoc & _). rewrite Hdoc in H.
  simpl in H. unfold commit_document in H.
  destruct (commit_raises env || _); simpl in H; [discriminate|].
  injection H as <- <-. simpl. unfold get_document. simpl.
  rewrite lookup_insert_eq. simpl. split.
  - rewrite bool_decide_eq_false_2 by (by intros ?). simpl.
    eexists. split; [reflexivity|]. simpl. rewrite Hname. simpl.
    split_and!; try done.
    intros other ->. by rewrite andb_false_r.
  - intros other Hother ->.
    by rewrite bool_decide_eq_true_2 by (by intros ?).
Qed.

Lemma upload_document_succeeds_witness :
  ∃ doc,
    upload_document default_settings None (env_at 1 "f1" "d1")
      (notes_txt "Hello") None None false "u1" empty_world
    = (Returned (upload_response "d1" doc), world_1)
    ∧ status doc = DRAFT ∧ document_type doc = TEXT.
Proof.
  destruct (upload_document_succeeds default_settings None (env_at 1 "f1" "d1")
              (notes_txt "Hello") None None false "u1" empty_world)
    as (doc & Hup & Hstatus & _ & _ & _ & Htype & _);
    [by vm_compute|by vm_compute|done|by vm_compute|].
  exists doc. split_and!; [|done|].
  - rewrite Hup. f_equal. unfold world_1. by rewrite Hup.
  - rewrite Htype. by vm_compute.
Defined.

Lemma upload_document_failure_cleans_up_witness :
  (upload_document tiny_settings None (env_at 1 "f1" "d1")
     (notes_txt "Hello world!") None None false "u1" empty_world).2
  = empty_world.
Proof.
  destruct (upload_document tiny_settings None (env_at 1 "f1" "d1")
              (notes_txt "Hello world!") None None false "u1" empty_world)
    as [[resp|e] w'] eqn:E; [by vm_compute in E|].
  destruct (upload_document_failure_cleans_up _ _ _ _ _ _ _ _ _ _ _ E)
    as [[_ ->]|(_ & Hdb & Hdisk)]; [done|].
  destruct w' as [dsk' db']. simpl in *. rewrite Hdb, Hdisk. reflexivity.
Defined.

Lemma upload_then_get_document_witness :
  ∃ r, get_document "d1" (db world_1) "u1" = Returned r
     ∧ r_file_size r = 5
     ∧ get_document "d1" (db world_1) "u2"
       = Raised (HTTPException HTTP_403_FORBIDDEN).
Proof.
  assert (E : upload_document default_settings None (env_at 1 "f1" "d1")
                (notes_txt "Hello") None None false "u1" empty_world
              = (Returned (version_response 5), world_1))
    by (vm_compute; reflexivity).
  destruct (upload_then_get_document _ _ _ _ _ _ _ _ _ _ _ E)
    as [(r & Hget & _ & _ & Hsize & _) Hother].
  exists r. split_and!; [exact Hget|exact Hsize|].
  apply (Hother "u2"); [by vm_compute|done].
Defined.


(** ** Version uploads *)

Lemma update_subtype_cases pypdf (dsk : gmap string (list byte))
    (fp : string) (s : Session) :
  ∃ sub, update_subtype pypdf dsk fp s
         = Returned {| obj := with_subtype (obj s) sub; new := new s |}
       ∧ same_class (subtype (obj s)) sub.
Proof.
  unfold update_subtype. destruct s as [doc rows]. simpl.
  destruct (subtype doc) as [|c|c] eqn:Hsub.
  - exists BaseDocument. split; [|done]. destruct doc. simpl in *. by subst.
  - destruct (extract_text_metadata_returns dsk fp) as (m & ->). simpl.
    eexists. split; [reflexivity|done].
  - destruct (extract_pdf_metadata_returns pypdf dsk fp) as (m & ->). simpl.
    eexists. split; [reflexivity|done].
Qed.

(** X6. A version upload that fails adds no version row and changes no
    document. Not found, forbidden and validation errors change nothing at
    all; a file that is too large is removed again; when the commit is
    rejected the new file stays on disk, and this handler does not remove
    it. *)
Theorem upload_new_version_failure_keeps_database (settings : BaseConfig)
    (pypdf : option (list byte -> outcome PdfReader)) (env : Env)
    (document_id : UUID) (upload : UploadFile) (change_summary : option string)
    (current_user : UUID) (w w' : World) (e : exn) :
  upload_new_version settings pypdf env document_id upload change_summary
    current_user w = (Raised e, w') →
  db w' = db w
  ∧ ((e = HTTPException HTTP_404_NOT_FOUND ∧ w' = w
      ∧ document (db w) !! document_id = None)
     ∨ (e = HTTPException HTTP_403_FORBIDDEN ∧ w' = w)
     ∨ (e = HTTPException HTTP_400_BAD_REQUEST ∧ w' = w)
     ∨ (e = HTTPException HTTP_413_REQUEST_ENTITY_TOO_LARGE
        ∧ disk w' = delete (upload_path settings env upload current_user) (disk w))
     ∨ (e = SQLAlchemyError
        ∧ disk w' = <[upload_path settings env upload current_user := file upload]>
                      (disk w))).
Proof.
  unfold upload_new_version. intros H.
  destruct (document (db w) !! document_id) as [doc|] eqn:Hdoc.
  2: { injection H as <- <-. split; [done|]. by left. }
  case_bool_decide as Hown.
  { injection H as <- <-. split; [done|]. right. by left. }
  destruct (validate_file upload) as [[]|e0] eqn:Hvalid.
  2: { injection H as <- <-. split; [done|]. right. right. left.
       split; [|done]. unfold validate_file in Hvalid.
       destruct (filename upload) as [[|c f]|]; try case_bool_decide;
         simplify_eq; done. }
  destruct (save_upload_file_cases settings env upload current_user
              (disk w)) as [Hsave|Hsave]; rewrite Hsave in H.
  - edestruct update_subtype_cases as (sub & Hsub & _). rewrite Hsub in H.
    simpl in H. unfold commit_session in H.
    destruct (commit_raises env || _); simpl in H; [|discriminate].
    injection H as <- <-. split; [done|]. do 4 right. done.
  - injection H as <- <-. split; [done|]. do 3 right. left. done.
Qed.

(** X7. A version upload that is answered replaces the file fields and the
    subtype columns of one document and nothing else: title, description,
    type, status, visibility, owner, creation time and download count of
    the document stay, its class stays, and every other document and the
    version rows of every other document are as before. *)
Theorem upload_new_version_changes_file_only (settings : BaseConfig)
    (pypdf : option (list byte -> outcome PdfReader)) (env : Env)
    (document_id : UUID) (upload : UploadFile) (change_summary : option string)
    (current_user : UUID) (w w' : World) (resp : DocumentUploadResponse)
    (doc : Document) :
  upload_new_version settings pypdf env document_id upload change_summary
    current_user w = (Returned resp, w') →
  document (db w) !! document_id = Some doc →
  (∃ doc', document (db w') !! document_id = Some doc'
      ∧ title doc' = title doc ∧ description doc' = description doc
      ∧ document_type doc' = document_type doc ∧ status doc' = status doc
      ∧ is_public doc' = is_public doc ∧ owner_id doc' = owner_id doc
      ∧ created_at doc' = created_at doc
      ∧ download_count doc' = download_count doc
      ∧ same_class (subtype doc) (subtype doc'))
  ∧ (∀ other, other ≠ document_id →
       document (db w') !! other = document (db w) !! other
       ∧ version_rows (db w') other = version_rows (db w) other).
Proof.
  intros H Hdoc.
  apply upload_new_version_Returned in H
    as (doc0 & s3 & Hdoc0 & _ & Hdisk & Hsub & Hdb & _).
  rewrite Hdoc in Hdoc0. injection Hdoc0 as <-.
  edestruct update_subtype_cases as (sub & Hsub' & Hclass).
  rewrite Hsub' in Hsub. injection Hsub as <-. simpl in *.
  rewrite Hdb. simpl. split.
  - eexists. rewrite lookup_insert_eq. split; [reflexivity|]. simpl.
    split_and!; done.
  - intros other Hother. rewrite lookup_insert_ne by done. split; [done|].
    unfold version_rows. simpl. rewrite filter_app.
    rewrite filter_cons_False by (simpl; congruence).
    by rewrite filter_nil, app_nil_r.
Qed.

(** X8. A version upload goes through whenever the document exists, the
    requester owns it, the file passes validation and fits the limit, and
    the database accepts the commit with a fresh row identifier. *)
Theorem upload_new_version_succeeds (settings : BaseConfig)
    (pypdf : option (list byte -> outcome PdfReader)) (env : Env)
    (document_id : UUID) (upload : UploadFile) (change_summary : option string)
    (current_user : UUID) (w : World) (doc : Document) :
  document (db w) !! document_id = Some doc →
  owner_id doc = current_user →
  validate_file upload = Returned () →
  Z.of_nat (length (file upload)) <= MAX_UPLOAD_SIZE settings →
  commit_raises env = false →
  uuid4_row env ∉ dv_id <$> document_version (db w) →
  ∃ resp w',
    upload_new_version settings pypdf env document_id upload change_summary
      current_user w = (Returned resp, w')
    ∧ up_id resp = document_id
    ∧ up_file_size resp = Z.of_nat (length (file upload))
    ∧ length (document_version (db w'))
      = S (length (document_version (db w))).
Proof.
  intros Hdoc Hown Hvalid Hfit Hcommit Hfresh. unfold upload_new_version.
  rewrite Hdoc, bool_decide_eq_false_2 by (by intros ?).
  rewrite Hvalid, save_upload_file_fits by done.
  edestruct update_subtype_cases as (sub & -> & _). simpl.
  unfold commit_session. rewrite Hcommit. simpl.
  rewrite bool_decide_eq_false_2.
  - simpl. eexists _, _. split; [reflexivity|]. simpl.
    rewrite length_app. simpl. split_and!; [done|done|lia].
  - intros Hex. apply Exists_cons in Hex as [Hex|Hex]; [done|].
    by apply Exists_nil in Hex.
Qed.

Lemma upload_new_version_failure_keeps_database_witness :
  ∃ e w',
    upload_new_version default_settings None (env_at 5 "f5" "v4") "d1"
      (notes_txt "Five") None "u2" world_4 = (Raised e, w')
    ∧ db w' = db world_4.
Proof.
  destruct (upload_new_version default_settings None (env_at 5 "f5" "v4") "d1"
              (notes_txt "Five") None "u2" world_4)
    as [[resp|e] w'] eqn:E; [by vm_compute in E|].
  exists e, w'. split; [reflexivity|].
  exact (proj1 (upload_new_version_failure_keeps_database _ _ _ _ _ _ _ _ _ _ E)).
Defined.

Lemma upload_new_version_changes_file_only_witness :
  ∃ doc', document (db world_2) !! "d1" = Some doc'
    ∧ title doc' = "notes" ∧ document_type doc' = TEXT.
Proof.
  destruct (document (db world_1) !! "d1") as [doc|] eqn:Hdoc;
    [|by vm_compute in Hdoc].
  destruct (upload_new_version_changes_file_only _ _ _ _ _ _ _ _ _ _ _
              version_upload_2 Hdoc)
    as [(doc' & Hdoc' & Ht & _ & Hty & _) _].
  vm_compute in Hdoc. injection Hdoc as <-.
  exists doc'. split_and!; [done|by rewrite Ht|by rewrite Hty].
Defined.

Lemma upload_new_version_succeeds_witness :
  ∃ resp w',
    upload_new_version default_settings None (env_at 5 "f5" "v4") "d1"
      (notes_txt "Five") None "u1" world_4 = (Returned resp, w')
    ∧ up_file_size resp = 4.
Proof.
  destruct (document (db world_4) !! "d1") as [doc|] eqn:Hdoc;
    [|by vm_compute in Hdoc].
  assert (Hown : owner_id doc = "u1").
  { vm_compute in Hdoc. by injection Hdoc as <-. }
  assert (Hvalid : validate_file (notes_txt "Five") = Returned ())
    by (vm_compute; reflexivity).
  assert (Hfit : Z.of_nat (length (file (notes_txt "Five")))
                 <= MAX_UPLOAD_SIZE default_settings)
    by (vm_compute; discriminate).
  assert (Hfresh : uuid4_row (env_at 5 "f5" "v4")
                   ∉ dv_id <$> document_version (db world_4)).
  { apply (bool_decide_unpack _). vm_compute. exact I. }
  destruct (upload_new_version_succeeds default_settings None
              (env_at 5 "f5" "v4") "d1" (notes_txt "Five") None "u1" world_4 doc
              Hdoc Hown Hvalid Hfit eq_refl Hfresh)
    as (resp & w' & Hup & _ & Hsize & _).
  exists resp, w'. split; [exact Hup|exact Hsize].
Defined.

(** ** Deleting and updating *)

(** X9. Deleting is for the owner only, also when the document is public.
    A delete by the owner that commits removes the row, the version rows
    of the document and the file at its path, so that the document is not
    found afterwards, whoever asks. Every other document, every version row
    of another document and every other file stay as they were: the files
    that the version rows of the document pointed to are not removed. *)
Theorem delete_document_removes_one (env : Env) (document_id : UUID)
    (w : World) (current_user : UUID) (doc : Document) :
  document (db w) !! document_id = Some doc →
  (owner_id doc ≠ current_user →
     delete_document env document_id w current_user
     = (Raised (HTTPException HTTP_403_FORBIDDEN), w))
  ∧ (owner_id doc = current_user → commit_raises env = false →
       ∃ w', delete_document env document_id w current_user = (Returned (), w')
         ∧ (∀ user, get_document document_id (db w') user
                    = Raised (HTTPException HTTP_404_NOT_FOUND))
         ∧ version_rows (db w') document_id = []
         ∧ disk w' !! file_path doc = None
         ∧ (∀ other, other ≠ document_id →
              document (db w') !! other = document (db w) !! other
              ∧ version_rows (db w') other = version_rows (db w) other)
         ∧ (∀ p, p ≠ file_path doc → disk w' !! p = disk w !! p)).
Proof.
  intros Hdoc. unfold delete_document. rewrite Hdoc. split.
  - intros Hne. by rewrite bool_decide_eq_true_2.
  - intros Hown Hcommit.
    rewrite bool_decide_eq_false_2 by (by intros ?). rewrite Hcommit.
    eexists. split; [reflexivity|]. simpl. split_and!.
    + intros user. unfold get_document. simpl. by rewrite lookup_delete_eq.
    + unfold version_rows. simpl. rewrite list_filter_filter.
      induction (document_version (db w)) as [|v l IH]; [done|].
      rewrite filter_cons_False; [done|]. intros [H1 H2]. done.
    + apply lookup_delete_eq.
    + intros other Hother. rewrite lookup_delete_ne by done. split; [done|].
      unfold version_rows. simpl. rewrite list_filter_filter.
      apply list_filter_iff. intros v. simpl. split; [tauto|].
      intros Hv. split; [done|]. congruence.
    + intros p Hp. by rewrite lookup_delete_ne.
Qed.

(** X10. A delete that fails never removes a row. When the document is
    missing or belongs to somebody else nothing changes; when the commit
    is rejected the row and its version rows are still there, and the file
    is already gone, since the file is removed first. *)
Theorem delete_document_failure_keeps_rows (env : Env) (document_id : UUID)
    (w w' : World) (current_user : UUID) (e : exn) :
  delete_document env document_id w current_user = (Raised e, w') →
  db w' = db w
  ∧ ((e = HTTPException HTTP_404_NOT_FOUND ∧ w' = w)
     ∨ (e = HTTPException HTTP_403_FORBIDDEN ∧ w' = w)
     ∨ (e = SQLAlchemyError
        ∧ ∃ doc, document (db w') !! document_id = Some doc
                 ∧ owner_id doc = current_user
                 ∧ disk w' = delete (file_path doc) (disk w))).
Proof.
  unfold delete_document. intros H.
  destruct (document (db w) !! document_id) as [doc|] eqn:Hdoc.
  2: { injection H as <- <-. split; [done|]. by left. }
  case_bool_decide as Hown.
  { injection H as <- <-. split; [done|]. right. by left. }
  destruct (commit_raises env); [|discriminate].
  injection H as <- <-. simpl. split; [done|]. right. right.
  split; [done|]. by exists doc.
Qed.

(** X11. Updating is for the owner only, also when the document is public,
    and every refused or failed update leaves the database as it was. *)
Theorem update_document_failure_keeps_database (env : Env)
    (document_id : UUID) (update_data : DocumentUpdateRequest)
    (d d' : Database) (current_user : UUID) (e : exn) :
  update_document env document_id update_data d current_user = (Raised e, d') →
  d' = d
  ∧ (∀ doc, document d !! document_id = Some doc →
       owner_id doc ≠ current_user → valid_update update_data = true →
       e = HTTPException HTTP_403_FORBIDDEN).
Proof.
  unfold update_document. intros H.
  destruct (valid_update update_data) eqn:Hvalid; simpl in H.
  2: { injection H as <- <-. split; [done|]. by intros. }
  destruct (document d !! document_id) as [doc|] eqn:Hdoc.
  2: { injection H as <- <-. split; [done|]. by intros. }
  case_bool_decide as Hown.
  { injection H as <- <-. split; [done|]. by intros. }
  destruct (commit_raises env || _); [|discriminate].
  injection H as <- <-. split; [done|]. intros ? [= <-] ?. done.
Qed.

(** X12. An update that is answered changes the title, the description, the
    status and the visibility as requested (a field that is not sent stays)
    and, apart from the time of the update, nothing else: not the file
    fields, the owner, the type or the subtype columns, not the version
    rows, and no other document. *)
Theorem update_document_changes_metadata_only (env : Env)
    (document_id : UUID) (update_data : DocumentUpdateRequest)
    (d d' : Database) (current_user : UUID) (r : DocumentDetailResponse)
    (doc : Document) :
  update_document env document_id update_data d current_user = (Returned r, d') →
  document d !! document_id = Some doc →
  owner_id doc = current_user
  ∧ (∃ doc', document d' !! document_id = Some doc'
       ∧ r = detail_response (document_id, doc')
       ∧ title doc' = default (title doc) (mjoin (u_title update_data))
       ∧ description doc'
         = default (description doc) (u_description update_data)
       ∧ status doc' = default (status doc) (mjoin (u_status update_data))
       ∧ is_public doc'
         = default (is_public doc) (mjoin (u_is_public update_data))
       ∧ file_path doc' = file_path doc ∧ file_name doc' = file_name doc
       ∧ file_size doc' = file_size doc ∧ checksum doc' = checksum doc
       ∧ mime_type doc' = mime_type doc
       ∧ document_type doc' = document_type doc
       ∧ owner_id doc' = owner_id doc ∧ created_at doc' = created_at doc
       ∧ download_count doc' = download_count doc
       ∧ subtype doc' = subtype doc)
  ∧ document_version d' = document_version d
  ∧ (∀ other, other ≠ document_id →
       document d' !! other = document d !! other).
Proof.
  unfold update_document. intros H Hdoc.
  destruct (valid_update update_data); simpl in H; [|discriminate].
  rewrite Hdoc in H. case_bool_decide as Hown; [discriminate|].
  destruct (commit_raises env || _); [discriminate|].
  injection H as <- <-. simpl. split; [done|]. split_and!; [|done|].
  - eexists. rewrite lookup_insert_eq. split; [reflexivity|].
    split; [reflexivity|].
    case_bool_decide as Hsame.
    + pose proof (f_equal title Hsame) as Ht.
      pose proof (f_equal description Hsame) as Hd.
      pose proof (f_equal status Hsame) as Hs.
      pose proof (f_equal is_public Hsame) as Hp. clear Hsame.
      destruct update_data as [[[t|]|] [de|] [[s|]|] [[b|]|]]; simpl in *;
        split_and!; done.
    + destruct update_data as [[[t|]|] [de|] [[s|]|] [[b|]|]]; simpl;
        split_and!; done.
  - intros other Hother. by rewrite lookup_insert_ne.
Qed.

(** X13. Sending the same update again changes nothing: the second answer
    is the first one, and the database after the first update stays. *)
Theorem update_document_twice (env1 env2 : Env) (document_id : UUID)
    (update_data : DocumentUpdateRequest) (d d1 : Database)
    (current_user : UUID) (r : DocumentDetailResponse) :
  update_document env1 document_id update_data d current_user = (Returned r, d1) →
  commit_raises env2 = false →
  update_document env2 document_id update_data d1 current_user = (Returned r, d1).
Proof.
  unfold update_document. intros H Hcommit.
  destruct (valid_update update_data); simpl in *; [|discriminate].
  destruct (document d !! document_id) as [doc|] eqn:Hdoc; [|discriminate].
  case_bool_decide as Hown; [discriminate|].
  destruct (commit_raises env1 || sets_null_in_required_column update_data)
    eqn:Hnull; [discriminate|].
  apply orb_false_elim in Hnull as [_ Hnull].
  injection H as <- <-. simpl. rewrite lookup_insert_eq.
  set (doc1 := if bool_decide (patched update_data doc = doc) then doc
               else set_updated_at (utcnow env1) (patched update_data doc)).
  assert (Hown1 : owner_id doc1 = current_user).
  { unfold doc1. by case_bool_decide. }
  assert (Hfix : patched update_data doc1 = doc1).
  { unfold doc1. case_bool_decide as Hsame; [done|].
    destruct doc, update_data as [[[t|]|] [de|] [[s|]|] [[b|]|]];
      reflexivity. }
  rewrite bool_decide_eq_false_2 by (by intros ?).
  rewrite Hcommit, Hnull. simpl.
  rewrite (bool_decide_eq_true_2 _ Hfix).
  by rewrite insert_insert_eq.
Qed.


Lemma delete_document_removes_one_witness :
  delete_document (env_at 30 "f" "r") "d1" world_two_docs "u2"
  = (Raised (HTTPException HTTP_403_FORBIDDEN), world_two_docs)
  ∧ ∃ w', delete_document (env_at 30 "f" "r") "d1" world_two_docs "u1"
          = (Returned (), w')
        ∧ disk w' !! "/fake/path/test.txt" = None
        ∧ document (db w') !! "d2" = Some published_doc.
Proof.
  assert (Hdoc : document (db world_two_docs) !! "d1" = Some private_doc)
    by (vm_compute; reflexivity).
  destruct (delete_document_removes_one (env_at 30 "f" "r") "d1"
              world_two_docs "u2" private_doc Hdoc) as [Hno _].
  destruct (delete_document_removes_one (env_at 30 "f" "r") "d1"
              world_two_docs "u1" private_doc Hdoc) as [_ Hyes].
  split; [apply Hno; by vm_compute|].
  destruct (Hyes eq_refl eq_refl) as (w' & Hdel & _ & _ & Hfile & Hother & _).
  exists w'. split_and!; [exact Hdel|exact Hfile|].
  destruct (Hother "d2") as [-> _]; [by vm_compute|]. by vm_compute.
Defined.

Lemma delete_document_failure_keeps_rows_witness :
  ∃ e w', delete_document (env_at 30 "f" "r") "d9" world_two_docs "u1"
          = (Raised e, w')
        ∧ db w' = db world_two_docs.
Proof.
  destruct (delete_document (env_at 30 "f" "r") "d9" world_two_docs "u1")
    as [[u|e] w'] eqn:E; [by vm_compute in E|].
  exists e, w'. split; [reflexivity|].
  exact (proj1 (delete_document_failure_keeps_rows _ _ _ _ _ _ E)).
Defined.

Lemma update_document_failure_keeps_database_witness :
  ∃ e d', update_document (env_at 30 "f" "r") "d1" publish_request two_docs "u2"
          = (Raised e, d')
        ∧ d' = two_docs ∧ e = HTTPException HTTP_403_FORBIDDEN.
Proof.
  destruct (update_document (env_at 30 "f" "r") "d1" publish_request two_docs "u2")
    as [[r|e] d'] eqn:E; [by vm_compute in E|].
  destruct (update_document_failure_keeps_database _ _ _ _ _ _ _ E)
    as [Hd He].
  exists e, d'. split_and!; [reflexivity|exact Hd|].
  apply (He private_doc); [by vm_compute|by vm_compute|reflexivity].
Defined.

Lemma update_document_changes_metadata_only_witness :
  ∃ r d' doc',
    update_document (env_at 30 "f" "r") "d1" publish_request two_docs "u1"
    = (Returned r, d')
    ∧ document d' !! "d1" = Some doc'
    ∧ status doc' = PUBLISHED ∧ is_public doc' = true
    ∧ title doc' = "Test Document" ∧ checksum doc' = Some "abc123".
Proof.
  destruct (update_document (env_at 30 "f" "r") "d1" publish_request two_docs "u1")
    as [[r|e] d'] eqn:E; [|by vm_compute in E].
  assert (Hdoc : document two_docs !! "d1" = Some private_doc)
    by (vm_compute; reflexivity).
  destruct (update_document_changes_metadata_only _ _ _ _ _ _ _ _ E Hdoc)
    as (_ & (doc' & Hdoc' & _ & Ht & _ & Hs & Hp & _ & _ & _ & Hc & _) & _).
  exists r, d', doc'. split_and!; [reflexivity|exact Hdoc'| | | |].
  - by rewrite Hs.
  - by rewrite Hp.
  - by rewrite Ht.
  - by rewrite Hc.
Defined.

Lemma update_document_twice_witness :
  ∃ r d1,
    update_document (env_at 30 "f" "r") "d1" publish_request two_docs "u1"
    = (Returned r, d1)
    ∧ update_document (env_at 40 "g" "s") "d1" publish_request d1 "u1"
      = (Returned r, d1).
Proof.
  destruct (update_document (env_at 30 "f" "r") "d1" publish_request two_docs "u1")
    as [[r|e] d1] eqn:E; [|by vm_compute in E].
  exists r, d1. split; [reflexivity|].
  exact (update_document_twice _ (env_at 40 "g" "s") _ _ _ _ _ _ E eq_refl).
Defined.

(** ** Pages of a listing *)

(** What a valid list request answers with: a page of the selected rows,
    newest first. *)
Lemma list_documents_page (page page_size : Z)
    (status_filter : option DocumentStatus) (type_filter : option DocumentType)
    (d : Database) (current_user : UUID) :
  1 <= page → 1 <= page_size <= 100 →
  list_documents page page_size status_filter type_filter d current_user
  = Returned
      {| documents :=
           detail_response <$>
             take (Z.to_nat page_size)
               (drop (Z.to_nat ((page - 1) * page_size))
                  (merge_sort (λ a b, created_at b.2 <= created_at a.2)
                     (filter (selected current_user status_filter type_filter)
                        (map_to_list (document d)))));
         total := Z.of_nat (length (filter (λ row, owner_id row.2 = current_user)
                                      (map_to_list (document d))));
         page := page; page_size := page_size |}.
Proof.
  intros Hpage [Hsize1 Hsize2]. unfold list_documents.
  rewrite (proj2 (Z.ltb_ge page 1)), (proj2 (Z.ltb_ge page_size 1)),
    (proj2 (Z.ltb_ge 100 page_size)) by lia.
  simpl orb. cbv iota. by rewrite where_opt_filters.
Qed.

Lemma created_desc_total :
  Total (λ a b : string * Document, created_at b.2 <= created_at a.2).
Proof. intros a b. lia. Qed.

Lemma created_desc_trans :
  Transitive (λ a b : string * Document, created_at b.2 <= created_at a.2).
Proof. intros a b c. lia. Qed.

(** X14. A page of a listing holds at most [page_size] documents, no
    document twice, and they come newest first: the creation times never
    increase along the page. *)
Theorem list_documents_page_sorted (page page_size : Z)
    (status_filter : option DocumentStatus) (type_filter : option DocumentType)
    (d : Database) (current_user : UUID) :
  1 <= page → 1 <= page_size <= 100 →
  ∃ resp,
    list_documents page page_size status_filter type_filter d current_user
    = Returned resp
    ∧ Z.of_nat (length (documents resp)) <= page_size
    ∧ NoDup (r_id <$> documents resp)
    ∧ StronglySorted (λ a b, b <= a) (r_created_at <$> documents resp).
Proof.
  intros Hpage Hsize. rewrite list_documents_page by done.
  eexists. split; [reflexivity|]. simpl.
  set (sorted := merge_sort _ _).
  assert (Hsub : take (Z.to_nat page_size)
                   (drop (Z.to_nat ((page - 1) * page_size)) sorted)
                 `sublist_of` sorted).
  { etrans; [apply sublist_take|apply sublist_drop]. }
  split_and!.
  - rewrite length_fmap, length_take. lia.
  - rewrite <- list_fmap_compose.
    rewrite (list_fmap_ext (r_id ∘ detail_response) fst _)
      by (by intros ? [? ?]).
    eapply sublist_NoDup; [|apply fmap_sublist, Hsub].
    unfold sorted. rewrite merge_sort_Permutation.
    eapply sublist_NoDup; [apply (NoDup_fst_map_to_list (document d))|].
    apply fmap_sublist, sublist_filter.
  - rewrite <- list_fmap_compose.
    apply (StronglySorted_fmap _ (λ a b : string * Document,
                                    created_at b.2 <= created_at a.2)).
    { by intros [? ?] [? ?]. }
    assert (Hs : StronglySorted (λ a b : string * Document,
                                   created_at b.2 <= created_at a.2) sorted).
    { apply StronglySorted_merge_sort;
        [apply created_desc_trans|apply created_desc_total]. }
    rewrite <- (take_drop (Z.to_nat ((page - 1) * page_size)) sorted) in Hs.
    apply StronglySorted_app_1_r in Hs.
    rewrite <- (take_drop (Z.to_nat page_size) (drop _ sorted)) in Hs.
    by apply StronglySorted_app_1_l in Hs.
Qed.


(** X16. A page past the last one is not an error: it is answered with no
    documents and the same total. *)
Theorem list_documents_past_the_end (page page_size : Z)
    (status_filter : option DocumentStatus) (type_filter : option DocumentType)
    (d : Database) (current_user : UUID) :
  1 <= page → 1 <= page_size <= 100 →
  Z.of_nat (size (filter (selected current_user status_filter type_filter)
                    (document d)))
  <= (page - 1) * page_size →
  ∃ resp,
    list_documents page page_size status_filter type_filter d current_user
    = Returned resp
    ∧ documents resp = []
    ∧ total resp
      = Z.of_nat (size (filter (λ row, owner_id row.2 = current_user)
                          (document d))).
Proof.
  intros Hpage Hsize Hpast. rewrite list_documents_page by done.
  eexists. split; [reflexivity|]. simpl.
  rewrite length_filter_map_to_list. split; [|done].
  rewrite drop_ge; [by rewrite take_nil|].
  rewrite (Permutation_length (merge_sort_Permutation _ _)).
  rewrite length_filter_map_to_list. lia.
Qed.

Lemma list_documents_page_sorted_witness :
  ∃ resp, list_documents 1 20 None None two_docs "u1" = Returned resp
        ∧ r_created_at <$> documents resp = [20; 10].
Proof.
  destruct (list_documents_page_sorted 1 20 None None two_docs "u1")
    as (resp & Hret & _); [lia|lia|].
  exists resp. split; [exact Hret|].
  vm_compute in Hret. by injection Hret as <-.
Defined.


Lemma list_documents_past_the_end_witness :
  ∃ resp, list_documents 3 20 None None two_docs "u1" = Returned resp
        ∧ documents resp = [] ∧ total resp = 2.
Proof.
  destruct (list_documents_past_the_end 3 20 None None two_docs "u1")
    as (resp & Hret & Hnone & Htotal); [lia|lia|by vm_compute|].
  exists resp. split_and!; [exact Hret|exact Hnone|].
  rewrite Htotal. by vm_compute.
Defined.

(** ** Counts of the text extractor *)

Lemma utf8_length (bs : list N) :
  ∀ t, Codec.utf8 bs = Some t → (length t <= length bs)%nat.
Proof.
  induction bs as [bs IH] using (induction_ltof1 _ (@length N)).
  unfold ltof in IH. destruct bs as [|b0 r0]; simpl.
  { intros t [= <-]. simpl. lia. }
  intros t.
  destruct (b0 <? 128)%N.
  { destruct (Codec.utf8 r0) as [t0|] eqn:E0; simpl; [|done].
    intros [= <-]. simpl. specialize (IH r0 ltac:(simpl; lia) _ E0). lia. }
  destruct ((194 <=? b0) && (b0 <=? 223))%N.
  { destruct r0 as [|b1 r1]; [done|].
    destruct (Codec.continuation b1); [|done].
    destruct (Codec.utf8 r1) as [t1|] eqn:E1; simpl; [|done].
    intros [= <-]. simpl. specialize (IH r1 ltac:(simpl; lia) _ E1). lia. }
  destruct ((224 <=? b0) && (b0 <=? 239))%N.
  { destruct r0 as [|b1 [|b2 r2]]; [done|done|].
    destruct (Codec.second_of_3 b0 b1 && Codec.continuation b2); [|done].
    destruct (Codec.utf8 r2) as [t2|] eqn:E2; simpl; [|done].
    intros [= <-]. simpl. specialize (IH r2 ltac:(simpl; lia) _ E2). lia. }
  destruct ((240 <=? b0) && (b0 <=? 244))%N; [|done].
  destruct r0 as [|b1 [|b2 [|b3 r3]]]; [done|done|done|].
  destruct (Codec.second_of_4 b0 b1 && Codec.continuation b2
            && Codec.continuation b3); [|done].
  destruct (Codec.utf8 r3) as [t3|] eqn:E3; simpl; [|done].
  intros [= <-]. simpl. specialize (IH r3 ltac:(simpl; lia) _ E3). lia.
Qed.

Lemma universal_newlines_length (t : list N) :
  (length (Codec.universal_newlines t) <= length t)%nat.
Proof.
  induction t as [t IH] using (induction_ltof1 _ (@length N)).
  unfold ltof in IH. destruct t as [|c r]; simpl; [lia|].
  destruct (c =? 13)%N.
  - destruct r as [|c' r']; simpl; [lia|].
    destruct (c' =? 10)%N; simpl.
    + specialize (IH r' ltac:(simpl; lia)). lia.
    + specialize (IH (c' :: r') ltac:(simpl; lia)). simpl in IH. lia.
  - specialize (IH r ltac:(simpl; lia)). simpl. lia.
Qed.

(** A carriage return never reaches the text. *)
Lemma universal_newlines_no_cr (t : list N) :
  13%N ∉ Codec.universal_newlines t.
Proof.
  induction t as [t IH] using (induction_ltof1 _ (@length N)).
  unfold ltof in IH. destruct t as [|c r]; simpl; [by intros ?%elem_of_nil|].
  destruct (N.eqb_spec c 13) as [->|Hc].
  - destruct r as [|c' r']; [by intros [?|?%elem_of_nil]%elem_of_cons|].
    destruct (c' =? 10)%N; intros [?|Hin]%elem_of_cons; try done.
    + by apply (IH r' ltac:(simpl; lia)).
    + by apply (IH (c' :: r') ltac:(simpl; lia)).
  - intros [?|Hin]%elem_of_cons; [done|].
    by apply (IH r ltac:(simpl; lia)).
Qed.

Lemma split_length (sep : N) (t : list N) :
  (1 <= length (Text.split sep t) <= length t + 1)%nat.
Proof.
  induction t as [|c r IH]; simpl; [lia|].
  destruct (c =? sep)%N; simpl; [lia|].
  destruct (Text.split sep r); simpl in *; lia.
Qed.

Lemma split_ws_from_length (t cur : list N) :
  (2 * length (Text.split_ws_from cur t)
   <= length t + match cur with [] => 1 | _ => 2 end)%nat.
Proof.
  revert cur. induction t as [|c r IH]; intros cur; simpl.
  - destruct cur; simpl; lia.
  - destruct (Text.isspace c).
    + destruct cur; simpl; specialize (IH []); simpl in IH; lia.
    + specialize (IH (cur ++ [c])).
      destruct (cur ++ [c]) eqn:E; [by destruct cur|].
      destruct cur; lia.
Qed.

(** X17. For a file that can be read, the text extractor reports at least
    one line (one also for an empty file) and at most one line more than
    characters, at most one word per two characters, rounded up, and no more
    characters than the file has bytes; the preview is absent exactly when
    there is no character, and holds at most 2000 characters without
    carriage returns. *)
Theorem text_metadata_counts (dsk : gmap string (list byte))
    (file_path : string) (content : list byte) :
  dsk !! file_path = Some content →
  ∃ m lines words chars,
    extract_text_metadata dsk file_path = Returned m
    ∧ m !! "line_count" = Some (PInt lines)
    ∧ m !! "word_count" = Some (PInt words)
    ∧ m !! "character_count" = Some (PInt chars)
    ∧ 1 <= lines <= chars + 1
    ∧ 0 <= 2 * words <= chars + 1
    ∧ chars <= Z.of_nat (length content)
    ∧ (m !! "content_preview" = Some PNone ↔ chars = 0)
    ∧ (∀ t, m !! "content_preview" = Some (PText t) →
         (length t <= 2000)%nat ∧ 13%N ∉ t).
Proof.
  intros Hfile. rewrite (extract_text_metadata_file _ _ _ Hfile).
  assert (Hgen : ∀ t enc, (length t <= length content)%nat → 13%N ∉ t →
    ∃ lines words chars,
      text_metadata_of t enc !! "line_count" = Some (PInt lines)
      ∧ text_metadata_of t enc !! "word_count" = Some (PInt words)
      ∧ text_metadata_of t enc !! "character_count" = Some (PInt chars)
      ∧ 1 <= lines <= chars + 1
      ∧ 0 <= 2 * words <= chars + 1
      ∧ chars <= Z.of_nat (length content)
      ∧ (text_metadata_of t enc !! "content_preview" = Some PNone ↔ chars = 0)
      ∧ (∀ t', text_metadata_of t enc !! "content_preview" = Some (PText t') →
           (length t' <= 2000)%nat ∧ 13%N ∉ t')).
  { intros t enc Hlen Hcr. unfold text_metadata_of.
    eexists _, _, _.
    split; [by rewrite lookup_insert_eq|].
    split; [rewrite lookup_insert_ne by done; by rewrite lookup_insert_eq|].
    split; [rewrite !lookup_insert_ne by done; by rewrite lookup_insert_eq|].
    rewrite !lookup_insert_ne by done. rewrite lookup_insert_eq.
    pose proof (split_length 10 t) as Hl.
    pose proof (split_ws_from_length t []) as Hw. simpl in Hw.
    unfold Text.split_ws, Text.len.
    split; [lia|]. split; [lia|]. split; [lia|]. split.
    - destruct t; simpl; split; intros H; try done; lia.
    - intros t' Ht'. destruct t as [|c t]; [done|].
      unfold Text.preview in Ht'. injection Ht' as <-. split.
      + rewrite length_cons, length_take. lia.
      + intros [Hc|Hin]%elem_of_cons; apply Hcr; [rewrite Hc; by left|].
        right. by eapply subseteq_take. }
  destruct (Codec.utf8 (Byte.to_N <$> content)) as [t|] eqn:Hdec.
  - apply utf8_length in Hdec. rewrite length_fmap in Hdec.
    pose proof (universal_newlines_length t) as Hlen.
    destruct (Hgen (Codec.universal_newlines t) "utf-8")
      as (l & wd & ch & Hall); [lia|apply universal_newlines_no_cr|].
    by eexists _, l, wd, ch.
  - pose proof (universal_newlines_length (Codec.latin1 (Byte.to_N <$> content)))
      as Hlen.
    unfold Codec.latin1 in Hlen at 2. rewrite length_fmap in Hlen.
    destruct (Hgen (Codec.universal_newlines
                      (Codec.latin1 (Byte.to_N <$> content))) "latin-1")
      as (l & wd & ch & Hall); [lia|apply universal_newlines_no_cr|].
    by eexists _, l, wd, ch.
Qed.


Lemma text_metadata_counts_witness :
  ∃ m lines chars,
    extract_text_metadata notes_disk "/u/notes.txt" = Returned m
    ∧ m !! "line_count" = Some (PInt lines)
    ∧ m !! "character_count" = Some (PInt chars)
    ∧ 1 <= lines <= chars + 1 ∧ chars <= 24.
Proof.
  destruct (text_metadata_counts notes_disk "/u/notes.txt"
              (list_byte_of_string "Hello world" ++ [x0d; x0a]
               ++ list_byte_of_string "Second line"))
    as (m & l & wd & ch & Hret & Hl & _ & Hc & Hlines & _ & Hbytes & _);
    [by vm_compute|].
  exists m, l, ch. split_and!; [exact Hret|exact Hl|exact Hc|lia|lia|].
  exact Hbytes.
Defined.

(** ** The pages of a PDF *)

Lemma page_loop (pgs : list PdfPage) (found : bool) (acc : list (list N)) :
  (foldl page_step (found, acc) pgs).1
  = found || existsb (λ page, match extract_text page with
                              | Returned t => Text.strip_truthy t
                              | Raised _ => false
                              end) pgs.
Proof.
  revert found acc. induction pgs as [|page pgs IH]; intros found acc; simpl.
  - by rewrite orb_false_r.
  - unfold page_step at 2. simpl.
    destruct (extract_text page) as [t|e]; simpl.
    + destruct (Text.strip_truthy t); simpl; rewrite IH; [|done].
      by rewrite orb_true_r.
    + by rewrite IH.
Qed.

(** X18. When the reader gives its pages, flags, header and metadata, the
    PDF metadata are built whatever the pages do: a page whose text cannot
    be extracted is skipped. The page count counts every page, and the
    document is searchable exactly when some page gives text that is not
    blank. *)
Theorem pdf_searchable_iff_some_page_has_text (reader : PdfReader)
    (pgs : list PdfPage) (enc : bool) (header : string)
    (info : option (gmap string pyval)) :
  pages reader = Returned pgs →
  reader_is_encrypted reader = Returned enc →
  pdf_header reader = Returned header →
  metadata reader = Returned info →
  ∃ m searchable,
    read_pdf_metadata reader = Returned m
    ∧ m !! "page_count" = Some (PInt (Z.of_nat (length pgs)))
    ∧ m !! "is_encrypted" = Some (PBool enc)
    ∧ m !! "is_searchable" = Some (PBool searchable)
    ∧ (searchable = true ↔
       ∃ page t, page ∈ pgs ∧ extract_text page = Returned t
                 ∧ ∃ c, c ∈ t ∧ Text.isspace c = false).
Proof.
  intros Hp He Hh Hm. unfold read_pdf_metadata.
  rewrite Hp, He, Hh, Hm. simpl.
  destruct (foldl page_step (false, []) pgs) as [found texts] eqn:Hloop.
  pose proof (page_loop pgs false []) as Hfound.
  rewrite Hloop in Hfound. simpl in Hfound.
  eexists _, found. split; [reflexivity|].
  rewrite !lookup_insert_ne by done. rewrite lookup_insert_eq.
  assert (Hbase : ∀ (m1 : gmap string pyval),
            (m1 = {[ "page_count" := PInt (Z.of_nat (length pgs));
                     "is_encrypted" := PBool enc;
                     "pdf_version" := if Py.truthy header
                                      then PStr (str_replace "%PDF-" "" header)
                                      else PNone ]}
             ∨ ∃ upd : gmap string pyval,
                 upd !! "page_count" = None ∧ upd !! "is_encrypted" = None
                 ∧ m1 = dict_update
                          {[ "page_count" := PInt (Z.of_nat (length pgs));
                             "is_encrypted" := PBool enc;
                             "pdf_version" :=
                               if Py.truthy header
                               then PStr (str_replace "%PDF-" "" header)
                               else PNone ]} upd) →
            m1 !! "page_count" = Some (PInt (Z.of_nat (length pgs)))
            ∧ m1 !! "is_encrypted" = Some (PBool enc)).
  { intros m1 [->|(upd & Hu1 & Hu2 & ->)].
    - split; [by rewrite lookup_insert_eq|].
      rewrite lookup_insert_ne by done. by rewrite lookup_insert_eq.
    - unfold dict_update. split.
      + rewrite lookup_union_r by done. by rewrite lookup_insert_eq.
      + rewrite lookup_union_r by done.
        rewrite lookup_insert_ne by done. by rewrite lookup_insert_eq. }
  match goal with
  | |- ?m1 !! "page_count" = _ ∧ _ =>
      destruct (Hbase m1) as [Hpc Henc]
  end.
  { destruct info as [m0|]; [|by left].
    case_bool_decide; [by left|]. right. eexists. split_and!; [| |reflexivity].
    - by rewrite !lookup_insert_ne by done.
    - by rewrite !lookup_insert_ne by done. }
  split; [exact Hpc|]. split; [exact Henc|]. split; [done|].
  rewrite Hfound. simpl. rewrite existsb_exists. split.
  - intros (page & Hin & Hpage). apply list_elem_of_In in Hin.
    destruct (extract_text page) as [t|] eqn:Ht; [|done].
    exists page, t. split_and!; [done|done|].
    unfold Text.strip_truthy in Hpage. apply existsb_exists in Hpage
      as (c & Hc & Hns). exists c. split; [by apply list_elem_of_In|].
    by destruct (Text.isspace c).
  - intros (page & t & Hin & Ht & c & Hc & Hns).
    exists page. split; [by apply list_elem_of_In|]. rewrite Ht.
    unfold Text.strip_truthy. apply existsb_exists. exists c.
    split; [by apply list_elem_of_In|]. by rewrite Hns.
Qed.


Lemma pdf_searchable_iff_some_page_has_text_witness :
  ∃ m, read_pdf_metadata two_page_reader = Returned m
     ∧ m !! "page_count" = Some (PInt 2)
     ∧ m !! "is_searchable" = Some (PBool true).
Proof.
  destruct (pdf_searchable_iff_some_page_has_text two_page_reader _ _ _ _
              eq_refl eq_refl eq_refl eq_refl)
    as (m & s & Hret & Hpc & _ & Hs & Hiff).
  exists m. split_and!; [exact Hret|exact Hpc|].
  rewrite Hs. do 2 f_equal. apply Hiff.
  eexists _, _. split_and!; [by right; left|reflexivity|].
  exists 111%N. split; [by left|reflexivity].
Defined.

(** ** Parsing the tags again *)

Lemma split_without_sep (sep : ascii) (s : string) :
  ¬ Py.contains sep s → Py.split sep s = [s].
Proof.
  induction s as [|c s IH]; simpl; [done|]. intros Hno.
  destruct (Ascii.eqb_spec c sep) as [->|Hne]; [tauto|].
  rewrite IH by tauto. done.
Qed.

Lemma split_append (sep : ascii) (s rest : string) :
  ¬ Py.contains sep s →
  Py.split sep (s +:+ String sep rest) = s :: Py.split sep rest.
Proof.
  induction s as [|c s IH]; simpl; intros Hno.
  - by rewrite Ascii.eqb_refl.
  - destruct (Ascii.eqb_spec c sep) as [->|Hne]; [tauto|].
    rewrite IH by tauto. done.
Qed.

Lemma split_join (sep : ascii) (l : list string) :
  l ≠ [] → (∀ s, s ∈ l → ¬ Py.contains sep s) →
  Py.split sep (Py.join (String sep EmptyString) l) = l.
Proof.
  induction l as [|s l IH]; [done|]. intros _ Hno.
  destruct l as [|s' l].
  - simpl. apply split_without_sep, Hno. by left.
  - change (Py.join (String sep EmptyString) (s :: s' :: l))
      with (s +:+ String sep (Py.join (String sep EmptyString) (s' :: l))).
    rewrite split_append by (apply Hno; by left).
    rewrite IH; [done|done|]. intros x Hx. apply Hno. by right.
Qed.

Lemma lstrip_length (s : string) :
  (String.length (Py.lstrip s) <= String.length s)%nat.
Proof.
  induction s as [|c s IH]; simpl; [lia|].
  destruct (Py.isspace c); simpl; lia.
Qed.

Lemma lstrip_fixed_append (s rest : string) :
  s ≠ EmptyString → Py.lstrip s = s → Py.lstrip (s +:+ rest) = s +:+ rest.
Proof.
  destruct s as [|c s]; [done|]. intros _. simpl.
  destruct (Py.isspace c); [|done]. intros H.
  pose proof (lstrip_length s) as Hlen. rewrite H in Hlen. simpl in Hlen. lia.
Qed.

Lemma append_not_empty (a b : string) :
  b ≠ EmptyString → a +:+ b ≠ EmptyString.
Proof. by destruct a. Qed.

Lemma rstrip_fixed_append (a b : string) :
  b ≠ EmptyString → Py.rstrip b = b → Py.rstrip (a +:+ b) = a +:+ b.
Proof.
  intros Hne Hb. induction a as [|c a IH]; [done|].
  change (String c a +:+ b) with (String c (a +:+ b)).
  pose proof (append_not_empty a b Hne) as Hab.
  cbn [Py.rstrip]. rewrite IH. by destruct (a +:+ b).
Qed.

Lemma strip_fixed (s : string) :
  Py.strip s = s → Py.lstrip s = s ∧ Py.rstrip s = s.
Proof.
  intros H. split.
  - rewrite <- H. apply PyFacts.lstrip_rstrip.
  - rewrite <- H at 1. unfold Py.strip. by rewrite PyFacts.rstrip_idem.
Qed.

Lemma join_trimmed (l : list string) :
  l ≠ [] →
  (∀ s, s ∈ l → s ≠ EmptyString ∧ Py.strip s = s) →
  Py.join "," l ≠ EmptyString
  ∧ Py.lstrip (Py.join "," l) = Py.join "," l
  ∧ Py.rstrip (Py.join "," l) = Py.join "," l.
Proof.
  induction l as [|s l IH]; [done|]. intros _ Hall.
  destruct (Hall s ltac:(by left)) as [Hs Hstrip].
  apply strip_fixed in Hstrip as [Hl Hr].
  destruct l as [|s' l]; [done|].
  destruct IH as (Hne & _ & Hr'); [done|intros x Hx; apply Hall; by right|].
  change (Py.join "," (s :: s' :: l))
    with (s +:+ String "," (Py.join "," (s' :: l))).
  split_and!.
  - by apply append_not_empty.
  - by apply lstrip_fixed_append.
  - apply rstrip_fixed_append; [done|].
    by apply (rstrip_fixed_append (String "," EmptyString)).
Qed.

Lemma filter_other_id (x : string) (l : list string) :
  x ∉ l → filter (λ y, y ≠ x) l = l.
Proof.
  induction l as [|y l IH]; [done|]. intros Hx.
  rewrite filter_cons_True.
  - f_equal. apply IH. intros Hin. apply Hx. by right.
  - intros ->. apply Hx. by left.
Qed.

Lemma keep_first_seen_NoDup_id (l : list string) :
  NoDup l → DocumentTaggingWorkflow.keep_first_seen l = l.
Proof.
  induction 1 as [|x l Hx Hl IH]; simpl; [done|].
  by rewrite IH, filter_other_id.
Qed.

Lemma parsed_tags_clean (response : string) :
  let tags := DocumentTaggingWorkflow._parse_tags_from_response response in
  (length tags <= 7)%nat ∧ NoDup tags
  ∧ ∀ tag, tag ∈ tags →
      tag ≠ EmptyString ∧ Py.strip tag = tag ∧ Py.lower tag = tag
      ∧ ¬ Py.contains "," tag.
Proof.
  intros tags. unfold tags, DocumentTaggingWorkflow._parse_tags_from_response.
  rewrite TaggingFacts.dedup_loop_start. split_and!.
  - rewrite length_take. lia.
  - eapply sublist_NoDup; [|apply sublist_take].
    apply TaggingFacts.keep_first_seen_NoDup.
  - intros tag Htag. apply subseteq_take in Htag.
    apply (proj1 (TaggingFacts.keep_first_seen_elem _ _)) in Htag.
    apply list_elem_of_fmap in Htag as (tok & -> & Htok).
    apply list_elem_of_filter in Htok as [Hne Htok].
    split_and!.
    + intros H%PyFacts.lower_empty. by rewrite H in Hne.
    + by rewrite PyFacts.strip_lower, PyFacts.strip_idem.
    + apply PyFacts.lower_idem.
    + intros Hc%PyFacts.contains_lower_comma%PyFacts.contains_strip.
      by apply (PyFacts.split_no_sep _ _ _ Htok).
Qed.

Lemma parse_clean_tags (tags : list string) :
  (length tags <= 7)%nat → NoDup tags →
  (∀ tag, tag ∈ tags →
     tag ≠ EmptyString ∧ Py.strip tag = tag ∧ Py.lower tag = tag
     ∧ ¬ Py.contains "," tag) →
  DocumentTaggingWorkflow._parse_tags_from_response (Py.join "," tags) = tags.
Proof.
  intros Hlen Hnodup Hall.
  destruct (decide (tags = [])) as [->|Hne]; [by vm_compute|].
  destruct (join_trimmed tags Hne) as (_ & Hl & Hr).
  { intros s Hs. by destruct (Hall s Hs) as (? & ? & _). }
  unfold DocumentTaggingWorkflow._parse_tags_from_response.
  rewrite TaggingFacts.dedup_loop_start.
  assert (Hstrip : Py.strip (Py.join "," tags) = Py.join "," tags)
    by (unfold Py.strip; by rewrite Hl, Hr).
  rewrite Hstrip.
  rewrite split_join;
    [|done|intros s Hs; by destruct (Hall s Hs) as (_ & _ & _ & ?)].
  assert (Hfilter : filter (λ tag, Py.truthy (Py.strip tag) = true) tags = tags).
  { clear -Hall. induction tags as [|t l IH]; [done|].
    destruct (Hall t ltac:(by left)) as (Hne & Hs & _).
    rewrite filter_cons_True.
    - f_equal. apply IH. intros x Hx. apply Hall. by right.
    - rewrite Hs. by destruct t. }
  rewrite Hfilter.
  assert (Hmap : (λ tag, Py.lower (Py.strip tag)) <$> tags = tags).
  { clear -Hall. induction tags as [|t l IH]; [done|].
    destruct (Hall t ltac:(by left)) as (_ & Hs & Hlow & _).
    simpl. rewrite Hs, Hlow. f_equal. apply IH.
    intros x Hx. apply Hall. by right. }
  rewrite Hmap, keep_first_seen_NoDup_id by done.
  by apply take_ge.
Qed.

(** X19. The tag parser reads its own output back: joining the parsed tags
    with commas, the form the prompt asks the model for, and parsing again
    gives the same tags. *)
Theorem parse_tags_reads_its_output (response : string) :
  DocumentTaggingWorkflow._parse_tags_from_response
    (Py.join "," (DocumentTaggingWorkflow._parse_tags_from_response response))
  = DocumentTaggingWorkflow._parse_tags_from_response response.
Proof.
  destruct (parsed_tags_clean response) as (Hlen & Hnodup & Hall).
  by apply parse_clean_tags.
Qed.

(** ** What a listing shows *)

(** X20. A listing shows rows of the database and nothing else: every
    record on a page is the record of a document that the requester owns
    and that passes the status and type filters. A document of somebody
    else is never listed, public or not. *)
Theorem list_documents_shows_only_selected (page page_size : Z)
    (status_filter : option DocumentStatus) (type_filter : option DocumentType)
    (d : Database) (current_user : UUID) (resp : DocumentListResponse)
    (r : DocumentDetailResponse) :
  list_documents page page_size status_filter type_filter d current_user
  = Returned resp →
  r ∈ documents resp →
  ∃ doc_id doc,
    document d !! doc_id = Some doc
    ∧ r = detail_response (doc_id, doc)
    ∧ owner_id doc = current_user
    ∧ (∀ s, status_filter = Some s → status doc = s)
    ∧ (∀ t, type_filter = Some t → document_type doc = t).
Proof.
  unfold list_documents. destruct (_ || _); [discriminate|].
  intros [= <-]. cbn [documents]. rewrite where_opt_filters.
  intros ([doc_id doc] & -> & Hin)%list_elem_of_fmap.
  apply subseteq_take, subseteq_drop in Hin.
  rewrite merge_sort_Permutation in Hin.
  apply list_elem_of_filter in Hin as [(Hown & Hs & Ht) Hin].
  apply elem_of_map_to_list in Hin.
  exists doc_id, doc. split_and!; [done|done|done| |].
  - by intros s ->.
  - by intros t ->.
Qed.

Lemma list_documents_shows_only_selected_witness :
  ∃ doc_id doc,
    document two_docs !! doc_id = Some doc
    ∧ detail_response ("d2", published_doc) = detail_response (doc_id, doc)
    ∧ owner_id doc = "u1"
    ∧ (∀ s, Some PUBLISHED = Some s → status doc = s)
    ∧ (∀ t, @None DocumentType = Some t → document_type doc = t).
Proof.
  eapply (list_documents_shows_only_selected 1 20 (Some PUBLISHED) None
            two_docs "u1").
  - rewrite list_documents_page by lia. reflexivity.
  - cbn [documents]. apply list_elem_of_fmap_2.
    replace (filter _ _) with [("d2", published_doc)] by (by vm_compute).
    by left.
Defined.

(** ** Visibility after an update *)

(** X21. The visibility that an update sets is the one the next read sees:
    after an answered update the owner reads the record the update answered
    with, and anybody else reads that same record when the update made the
    document public and is refused (403) when it made the document
    private. *)
Theorem update_then_get_document (env : Env) (document_id : UUID)
    (update_data : DocumentUpdateRequest) (d d' : Database)
    (current_user other : UUID) (r : DocumentDetailResponse) (public : bool) :
  update_document env document_id update_data d current_user = (Returned r, d') →
  u_is_public update_data = Some (Some public) →
  other ≠ current_user →
  get_document document_id d' current_user = Returned r
  ∧ get_document document_id d' other
    = if public then Returned r else Raised (HTTPException HTTP_403_FORBIDDEN).
Proof.
  unfold update_document. intros H Hpub Hother.
  destruct (valid_update update_data); cbn [negb] in H; [|discriminate].
  destruct (document d !! document_id) as [doc|] eqn:Hdoc; [|discriminate].
  case_bool_decide as Hown; [discriminate|].
  destruct (commit_raises env || _); [discriminate|].
  set (doc' := if bool_decide (patched update_data doc = doc) then doc
               else set_updated_at (utcnow env) (patched update_data doc)) in H.
  assert (Hdoc' : owner_id doc' = current_user ∧ is_public doc' = public).
  { unfold doc'. case_bool_decide as Hsame.
    - split; [done|]. rewrite <- Hsame. unfold patched. simpl. by rewrite Hpub.
    - unfold patched. simpl. by rewrite Hpub. }
  clearbody doc'. destruct Hdoc' as [Hown' <-].
  set (resp := detail_response (document_id, doc')) in H.
  injection H as <- <-. unfold get_document. cbn [document].
  rewrite lookup_insert_eq, Hown'. split.
  - rewrite bool_decide_eq_false_2; [done|]. intros Hne. by apply Hne.
  - rewrite bool_decide_eq_true_2 by (intros Heq; by apply Hother).
    fold resp. clearbody resp. by destruct (is_public doc').
Qed.

Lemma update_then_get_document_witness :
  ∃ r d',
    update_document (env_at 30 "f" "r") "d1" publish_request two_docs "u1"
    = (Returned r, d')
    ∧ get_document "d1" two_docs "u2" = Raised (HTTPException HTTP_403_FORBIDDEN)
    ∧ get_document "d1" d' "u1" = Returned r
    ∧ get_document "d1" d' "u2" = Returned r.
Proof.
  destruct (update_document (env_at 30 "f" "r") "d1" publish_request two_docs "u1")
    as [[r|e] d'] eqn:Hupd; [|by vm_compute in Hupd].
  exists r, d'. split; [reflexivity|]. split; [by vm_compute|].
  apply (update_then_get_document _ _ _ _ _ _ "u2" _ true Hupd);
    [reflexivity|done].
Defined.

(** ** The form of a checksum *)

Lemma round_length (s : list N) (kw : N * N) :
  length (hashlib.round s kw) = length s.
Proof.
  unfold hashlib.round.
  do 9 (destruct s as [|? s]; [reflexivity|]). reflexivity.
Qed.

Lemma compress_length (h block : list N) :
  length (hashlib.compress h block) = length h.
Proof.
  with_strategy transparent [hashlib.compress] unfold hashlib.compress.
  rewrite length_zip_with.
  assert (Hfold : ∀ l s, length (foldl hashlib.round s l) = length s).
  { induction l as [|kw l IH]; intros s; simpl; [done|].
    by rewrite IH, round_length. }
  rewrite Hfold. lia.
Qed.

Lemma absorb_chaining_length (h : hashlib.sha256) (b : N) :
  length (hashlib.chaining (hashlib.absorb h b)) = length (hashlib.chaining h).
Proof.
  unfold hashlib.absorb. destruct (_ =? _)%nat; simpl; [|done].
  apply compress_length.
Qed.

Lemma absorb_all_chaining_length (l : list N) (h : hashlib.sha256) :
  length (hashlib.chaining (foldl hashlib.absorb h l))
  = length (hashlib.chaining h).
Proof.
  revert h. induction l as [|b l IH]; intros h; simpl; [done|].
  by rewrite IH, absorb_chaining_length.
Qed.


Lemma hex_digit_hex (n : N) : (n < 16)%N → hashlib.hex_digit n ∈ hex_digits.
Proof.
  intros Hn.
  assert (Hcases : n ∈ (N.of_nat <$> seq 0 16)).
  { apply list_elem_of_fmap. exists (N.to_nat n). split; [lia|].
    apply elem_of_seq. lia. }
  simpl in Hcases.
  repeat (apply elem_of_cons in Hcases as [->|Hcases];
          [vm_compute; repeat constructor|]).
  by apply elem_of_nil in Hcases.
Qed.

Lemma hex_word_form (w : N) :
  length (hashlib.hex_word w) = 8%nat
  ∧ ∀ c, c ∈ hashlib.hex_word w → c ∈ hex_digits.
Proof.
  split; [reflexivity|]. unfold hashlib.hex_word.
  intros c (i & -> & _)%list_elem_of_fmap. apply hex_digit_hex.
  change 15%N with (N.ones 4). rewrite N.land_ones.
  apply N.mod_lt. done.
Qed.

Lemma hex_words_form (ws : list N) :
  length (mjoin (hashlib.hex_word <$> ws)) = (8 * length ws)%nat
  ∧ ∀ c, c ∈ mjoin (hashlib.hex_word <$> ws) → c ∈ hex_digits.
Proof.
  induction ws as [|w ws [IHlen IHhex]]; [split; [done|by intros ? ?%elem_of_nil]|].
  change (mjoin (hashlib.hex_word <$> w :: ws))
    with (hashlib.hex_word w ++ mjoin (hashlib.hex_word <$> ws)).
  destruct (hex_word_form w) as [Hlen Hhex]. split.
  - rewrite length_app, Hlen, IHlen. simpl. lia.
  - intros c [?|?]%elem_of_app; auto.
Qed.

Lemma H0_length : length hashlib.H0 = 8%nat.
Proof. by vm_compute. Qed.

Lemma string_length_list (s : string) :
  String.length s = length (list_ascii_of_string s).
Proof. induction s as [|c s IH]; simpl; [done|]. by rewrite IH. Qed.

Lemma sha256_hexdigest_form (data : list byte) :
  String.length (hashlib.sha256_hexdigest data) = 64%nat
  ∧ ∀ c, c ∈ list_ascii_of_string (hashlib.sha256_hexdigest data) →
         c ∈ hex_digits.
Proof.
  unfold hashlib.sha256_hexdigest, hashlib.hexdigest.
  set (ws := hashlib.chaining _).
  assert (Hws : length ws = 8%nat).
  { unfold ws, hashlib.update.
    rewrite !absorb_all_chaining_length. apply H0_length. }
  destruct (hex_words_form ws) as [Hlen Hhex]. split.
  - rewrite string_length_list, list_ascii_of_string_of_list_ascii.
    by rewrite Hlen, Hws.
  - intros c. rewrite list_ascii_of_string_of_list_ascii. apply Hhex.
Qed.

(** X22. The checksum of a stored upload fits its column: it is a string
    of exactly 64 characters, each one a digit or a letter from a to f in
    lower case. *)
Theorem save_upload_file_checksum_form (settings : BaseConfig) (env : Env)
    (upload_file : UploadFile) (owner_id : UUID) (dsk dsk' : Disk)
    (p : string) (sz : Z) (sum : string) :
  save_upload_file settings env upload_file owner_id dsk
  = (Returned (p, sz, sum), dsk') →
  String.length sum = 64%nat
  ∧ ∀ c, c ∈ list_ascii_of_string sum → c ∈ hex_digits.
Proof.
  intros (_ & _ & -> & _)%save_upload_file_Returned.
  apply sha256_hexdigest_form.
Qed.

Lemma save_upload_file_checksum_form_witness :
  ∃ p sz sum dsk',
    save_upload_file default_settings (env_at 1 "f1" "d1") (notes_txt "Hello")
      "u1" ∅ = (Returned (p, sz, sum), dsk')
    ∧ String.length sum = 64%nat.
Proof.
  eexists _, _, _, _.
  assert (Hsave := save_upload_file_fits default_settings (env_at 1 "f1" "d1")
                     (notes_txt "Hello") "u1" ∅ ltac:(by vm_compute)).
  split; [exact Hsave|].
  exact (proj1 (save_upload_file_checksum_form _ _ _ _ _ _ _ _ _ Hsave)).
Defined.

(** ** Uploading and listing *)

(** X23. The total that a listing reports counts the uploads: an answered
    upload raises the total of the uploader by exactly one, whatever the
    page and the filters asked for, and leaves the total of everybody else
    as it was. *)
Theorem upload_then_list_documents (settings : BaseConfig)
    (pypdf : option (list byte -> outcome PdfReader)) (env : Env)
    (upload : UploadFile) (title0 description0 : option string)
    (is_public0 : bool) (current_user : UUID) (w w' : World)
    (resp : DocumentUploadResponse) (page page_size : Z)
    (status_filter : option DocumentStatus)
    (type_filter : option DocumentType) :
  upload_document settings pypdf env upload title0 description0 is_public0
    current_user w = (Returned resp, w') →
  1 <= page → 1 <= page_size <= 100 →
  ∀ user, ∃ before after,
    list_documents page page_size status_filter type_filter (db w) user
    = Returned before
    ∧ list_documents page page_size status_filter type_filter (db w') user
      = Returned after
    ∧ total after
      = if decide (user = current_user) then total before + 1 else total before.
Proof.
  unfold upload_document. intros H Hpage Hsize user.
  destruct (validate_file upload) as [u|e0]; [|by simplify_eq].
  destruct (save_upload_file_cases settings env upload current_user (disk w))
    as [Hsave|Hsave]; rewrite Hsave in H; [|by simplify_eq].
  edestruct new_document_cases as (sub & Hdoc & _). rewrite Hdoc in H.
  cbn [bind] in H. unfold commit_document in H.
  destruct (commit_raises env || _) eqn:Hcommit; cbn [bind] in H;
    [discriminate|].
  apply orb_false_elim in Hcommit as [_ Hfresh].
  apply bool_decide_eq_false_1 in Hfresh.
  assert (Hnone : document (db w) !! uuid4_row env = None).
  { destruct (document (db w) !! uuid4_row env) eqn:E; [|done].
    destruct Hfresh. by eexists. }
  injection H as _ <-.
  rewrite !list_documents_page by done.
  eexists _, _. split; [reflexivity|]. split; [reflexivity|].
  cbn [total db document]. rewrite !length_filter_map_to_list.
  destruct (decide (user = current_user)) as [->|Hother].
  - rewrite map_filter_insert_True by done.
    rewrite map_size_insert_None; [lia|].
    by apply map_lookup_filter_None_2; left.
  - rewrite map_filter_insert_False by (simpl; congruence).
    by rewrite delete_id.
Qed.

Lemma upload_then_list_documents_witness :
  ∃ before after,
    list_documents 1 20 None None (db empty_world) "u1" = Returned before
    ∧ list_documents 1 20 None None (db world_1) "u1" = Returned after
    ∧ total after = total before + 1.
Proof.
  assert (E : upload_document default_settings None (env_at 1 "f1" "d1")
                (notes_txt "Hello") None None false "u1" empty_world
              = (Returned (version_response 5), world_1))
    by (vm_compute; reflexivity).
  destruct (upload_then_list_documents _ _ _ _ _ _ _ _ _ _ _ 1 20 None None
              E ltac:(lia) ltac:(lia) "u1")
    as (before & after & Hbefore & Hafter & Htotal).
  exists before, after. split_and!; [exact Hbefore|exact Hafter|].
  rewrite Htotal. by rewrite decide_True.
Defined.
